(** * Network test tool: device bridge, presence monitor, network monitor,
      diagnostic capture and test controller (src/main.py)

    Shallow embedding of the monitoring core of [main.py].

    Text.  Python [str] values are modelled as Stdlib strings of 8-bit
    characters.  A literal with non-ASCII characters stands for its UTF-8
    bytes; substring search on UTF-8 bytes agrees with substring search on
    code points.  [strip], [split], [lower] and [int] are defined on the ASCII
    range, which is what the bridge prints ([adb devices], [getprop], [ping],
    [/proc/net/dev]); Python's treatment of non-ASCII whitespace, digits and
    case mappings is outside the model.

    Effects.  A thread body or a GUI slot is a function that returns the
    list of effects it performs (processes run with their outcome, sleeps,
    signals emitted, dialogs shown, threads and timers started) next to its
    result and the new object state.  What the operating system answers to a spawned
    process is an explicit argument. *)

From Stdlib Require Import ZArith QArith Qabs List Bool Ascii String Lia.
From Stdlib Require Import Numbers.DecimalString.
Import ListNotations.

Open Scope string_scope.
Open Scope Z_scope.

(* ------------------------------------------------------------------ *)
(** ** Python string primitives                                         *)
(* ------------------------------------------------------------------ *)

Module Py.

(** [sub in s]. *)
Fixpoint contains (sub s : string) : bool :=
  match s with
  | EmptyString => prefix sub EmptyString
  | String _ rest => prefix sub s || contains sub rest
  end.

(** Characters for which [str.isspace] holds, ASCII range:
    TAB LF VT FF CR, FS GS RS US, SPACE. *)
Definition isspace (c : ascii) : bool :=
  let n := nat_of_ascii c in
  ((9 <=? n) && (n <=? 13) || (28 <=? n) && (n <=? 32))%nat.

Fixpoint lstrip (s : string) : string :=
  match s with
  | EmptyString => EmptyString
  | String c rest => if isspace c then lstrip rest else s
  end.

(** [rstrip]: a character is kept when it is not a space or when
    something is kept after it. *)
Fixpoint rstrip (s : string) : string :=
  match s with
  | EmptyString => EmptyString
  | String c rest =>
      match rstrip rest with
      | EmptyString => if isspace c then EmptyString else String c EmptyString
      | kept => String c kept
      end
  end.

(** [s.strip()]. *)
Definition strip (s : string) : string := rstrip (lstrip s).

(** [s.split(sep)] for a one-character separator: the pieces between the
    separators, empty pieces included; never the empty list. *)
Fixpoint split_on (sep : ascii) (s : string) : list string :=
  match s with
  | EmptyString => [EmptyString]
  | String c rest =>
      if Ascii.eqb c sep then EmptyString :: split_on sep rest
      else match split_on sep rest with
           | piece :: more => String c piece :: more
           | [] => [String c EmptyString]
           end
  end.

(** [s.split()]: maximal runs of non-space characters.  [cur] is the run
    being read, reversed by [String] consing at the end. *)
Fixpoint split_ws_from (cur : string) (s : string) : list string :=
  match s with
  | EmptyString => if String.eqb cur EmptyString then [] else [cur]
  | String c rest =>
      if isspace c
      then (if String.eqb cur EmptyString then split_ws_from EmptyString rest
            else cur :: split_ws_from EmptyString rest)
      else split_ws_from (cur ++ String c EmptyString) rest
  end.

Definition split (s : string) : list string := split_ws_from EmptyString s.

(** [sep.join(parts)]. *)
Fixpoint join (sep : string) (parts : list string) : string :=
  match parts with
  | [] => EmptyString
  | [p] => p
  | p :: more => p ++ sep ++ join sep more
  end.

Definition lower_char (c : ascii) : ascii :=
  let n := nat_of_ascii c in
  if ((65 <=? n) && (n <=? 90))%nat then ascii_of_nat (n + 32) else c.

(** [s.lower()]. *)
Fixpoint lower (s : string) : string :=
  match s with
  | EmptyString => EmptyString
  | String c rest => String (lower_char c) (lower rest)
  end.

Definition is_digit (c : ascii) : bool :=
  let n := nat_of_ascii c in ((48 <=? n) && (n <=? 57))%nat.

Definition digit_value (c : ascii) : Z := Z.of_nat (nat_of_ascii c) - 48.

(** Digits of an [int] literal: decimal digits, single underscores allowed
    between two digits.  [after_digit] tells whether the previous character
    was a digit. *)
Fixpoint int_digits (acc : Z) (after_digit : bool) (s : string) : option Z :=
  match s with
  | EmptyString => if after_digit then Some acc else None
  | String c rest =>
      if is_digit c then int_digits (10 * acc + digit_value c) true rest
      else if Ascii.eqb c "_"%char
           then (if after_digit then int_digits acc false rest else None)
           else None
  end.

(** [int(s)]: [None] stands for [ValueError].  The interpreter's limit on
    the number of digits of a literal is not modelled. *)
Definition int (s : string) : option Z :=
  match strip s with
  | String "+"%char rest => int_digits 0 false rest
  | String "-"%char rest => option_map Z.opp (int_digits 0 false rest)
  | t => int_digits 0 false t
  end.

(** Truth value of a string, and of an optional string ([None] or [""]
    are false). *)
Definition truthy (s : string) : bool := negb (String.eqb s EmptyString).

Definition truthy_opt (o : option string) : bool :=
  match o with
  | Some s => truthy s
  | None => false
  end.

Definition LF : ascii := "010"%char.

End Py.

(* ------------------------------------------------------------------ *)
(** ** Effects                                                          *)
(* ------------------------------------------------------------------ *)

(** What [subprocess.run(cmd, capture_output=True, text=True)] does: it
    raises, when the executable cannot be started and also, after the
    process has exited, when its output cannot be decoded as text; or it
    returns the exit status and the captured standard output.  No [check=]
    and no [timeout=] argument is passed anywhere in the program. *)
Inductive completed : Type :=
| Raised (e : string)
| Completed (returncode : Z) (stdout : string).

(** The operating system, as seen by one call site: the outcome of the
    process started with a given argument vector. *)
Definition os : Type := list string -> completed.

Inductive effect : Type :=
| Spawn (argv : list string) (result : completed)  (* subprocess.run *)
| Sleep (ms : Z)                                   (* time.sleep, in ms *)
| DeviceStatus (text color : string) (connected : bool)
| ErrorSignal (msg : string)                       (* NetworkMonitor.error_signal *)
| SpeedSignal (text : string)                      (* NetworkMonitor.speed_signal *)
| FinishedSignal (path msg : string)               (* BugReportThread.finished_signal *)
| MakeDirs (path : string)
| Warning (title text : string)                    (* QMessageBox.warning *)
| Question (title text : string)                   (* QMessageBox.question *)
| Critical (title text : string)                   (* QMessageBox.critical *)
| Information (title text : string)                (* QMessageBox.information *)
| LogDialogShow
| LogDialogAccept
| BugReportStart (error_msg : string)              (* BugReportThread(...).start() *)
| MonitorStart | MonitorStop
| TimerStart (ms : Z) | TimerStop
| SwipeTimerStart (ms : Z) | SwipeTimerStop.

(* ------------------------------------------------------------------ *)
(** ** AdbWorker                                                        *)
(* ------------------------------------------------------------------ *)

Record AdbWorker : Type := mkAdb {
  adb_path : string;
  device_id : option string
}.

Module Adb.

(** The argument vector built by [run_cmd]: the tool, the device selector
    when [self.device_id] is truthy, then the arguments. *)
Definition cmdline (self : AdbWorker) (args : list string) : list string :=
  ([adb_path self]
     ++ (if Py.truthy_opt (device_id self)
         then ["-s"; match device_id self with Some d => d | None => "" end]
         else [])
     ++ args)%list.

(** [AdbWorker.run_cmd]. *)
Definition run_cmd (self : AdbWorker) (args : list string) (sys : os)
  : list effect * option string :=
  if negb (Py.truthy (adb_path self)) then ([], None)
  else
    let cmd := cmdline self args in
    match sys cmd with
    | Completed _ out => ([Spawn cmd (sys cmd)], Some (Py.strip out))
    | Raised _ => ([Spawn cmd (sys cmd)], None)
    end.

(** Lines of [adb devices] that name a device: header dropped, blank lines
    dropped, the word "device" required; the first field of each. *)
Definition first_field (line : string) : string :=
  match Py.split line with
  | f :: _ => f
  | [] => EmptyString
  end.

Definition enumerate (stdout : string) : list string :=
  let output := Py.strip stdout in
  let lines := tl (Py.split_on Py.LF output) in
  map first_field
      (filter (fun line => Py.truthy (Py.strip line) && Py.contains "device" line)
              lines).

Definition connected_text (d : string) : string :=
  "✅ 已连接设备: " ++ d.
Definition absent_text : string := "⚠️ 未检测到设备，请连接手机".
Definition failure_text (e : string) : string := "❌ ADB 服务异常: " ++ e.

Definition opt_eqb (a : option string) (b : string) : bool :=
  match a with
  | Some x => String.eqb x b
  | None => false
  end.

(** One turn of the loop of [AdbWorker.run]. *)
Definition poll (self : AdbWorker) (sys : os) : list effect * AdbWorker :=
  let cmd := [adb_path self; "devices"] in
  match sys cmd with
  | Raised e =>
      ([Spawn cmd (sys cmd); DeviceStatus (failure_text e) "red" false; Sleep 2000], self)
  | Completed _ out =>
      match enumerate out with
      | d :: _ =>
          if negb (opt_eqb (device_id self) d)
          then ([Spawn cmd (sys cmd); DeviceStatus (connected_text d) "green" true; Sleep 2000],
                mkAdb (adb_path self) (Some d))
          else ([Spawn cmd (sys cmd); Sleep 2000], self)
      | [] =>
          match device_id self with
          | Some _ =>
              ([Spawn cmd (sys cmd); DeviceStatus absent_text "red" false; Sleep 2000],
               mkAdb (adb_path self) None)
          | None => ([Spawn cmd (sys cmd); Sleep 2000], self)
          end
      end
  end.

(** [AdbWorker.run]: one answer of the operating system per turn; the
    loop ends when [self.running] is cleared, here when the answers are
    used up. *)
Fixpoint run (self : AdbWorker) (answers : list os) : list effect * AdbWorker :=
  match answers with
  | [] => ([], self)
  | sys :: later =>
      let '(e1, self1) := poll self sys in
      let '(e2, self2) := run self1 later in
      ((e1 ++ e2)%list, self2)
  end.

(** [AdbWorker.get_brand]. *)
Definition get_brand (self : AdbWorker) (sys : os) : list effect * option string :=
  run_cmd self ["shell"; "getprop"; "ro.product.brand"] sys.

(** [AdbWorker.get_device_info]. *)
Definition show (o : option string) : string :=
  match o with Some s => s | None => "None" end.

Definition get_device_info (self : AdbWorker) (sys : os) : list effect * string :=
  let '(e1, model) := run_cmd self ["shell"; "getprop"; "ro.product.model"] sys in
  let '(e2, version) := run_cmd self ["shell"; "getprop"; "ro.build.version.release"] sys in
  ((e1 ++ e2)%list, show model ++ " (Android " ++ show version ++ ")").

Definition in_opt (sub : string) (o : option string) : bool :=
  match o with
  | Some s => Py.truthy s && Py.contains sub s
  | None => false
  end.

(** [AdbWorker.get_network_type]. *)
Definition get_network_type (self : AdbWorker) (sys : os) : list effect * string :=
  let '(e1, ping_res) :=
    run_cmd self ["shell"; "ping"; "-c"; "1"; "-w"; "1"; "223.5.5.5"] sys in
  let has_internet := in_opt "1 received" ping_res in
  let '(e2, wifi_dump) := run_cmd self ["shell"; "dumpsys"; "wifi"] sys in
  let '(e3, ip_info) :=
    run_cmd self ["shell"; "ip"; "-o"; "-4"; "addr"; "show"; "up"] sys in
  let net_types :=
    match ip_info with
    | Some info =>
        if Py.truthy info then
          ((if Py.contains "wlan" info then ["Wi-Fi"] else [])
             ++ (if Py.contains "rmnet" info || Py.contains "ccmni" info
                 then ["移动数据"] else [])
             ++ (if Py.contains "eth" info then ["有线网络"] else []))%list
        else []
    | None => []
    end in
  match net_types with
  | [] => ((e1 ++ e2 ++ e3)%list, "无网络连接 (未检测到有效IP)")
  | _ =>
      let status_str := Py.join " + " net_types in
      if has_internet
      then ((e1 ++ e2 ++ e3)%list, status_str ++ " (互联网正常)")
      else ((e1 ++ e2 ++ e3)%list, status_str ++ " (无互联网访问)")
  end.

(** [AdbWorker.capture_bugreport]: [path_join] is [os.path.join], [stamp]
    is [int(time.time())] printed, [exists_dir] the answer of
    [os.path.exists]; [os.makedirs] may raise. *)
Definition capture_bugreport (path_join : string -> string -> string)
           (self : AdbWorker) (save_dir stamp : string)
           (exists_dir : bool) (makedirs_error : option string) (sys : os)
  : list effect * (string + string) :=
  let filename := "bugreport_" ++ stamp in
  let full_path := path_join save_dir filename in
  let go :=
    let '(e, _) := run_cmd self ["bugreport"; full_path] sys in
    (e, inl (full_path ++ ".zip")) in
  if exists_dir then go
  else match makedirs_error with
       | Some err => ([MakeDirs save_dir], inr err)
       | None => (MakeDirs save_dir :: fst go, snd go)
       end.

End Adb.

(* ------------------------------------------------------------------ *)
(** ** Floating-point interface                                         *)
(* ------------------------------------------------------------------ *)

(** The operations of Python [float] that the monitor uses.  The thread is
    stated over any implementation of them; [QFloat] below instantiates them
    with exact rationals. *)
Class Float (F : Type) : Type := {
  fsub : F -> F -> F;            (* x - y *)
  ge_one : F -> bool;            (* x >= 1.0 *)
  int_div : Z -> F -> F;         (* n / x, n an int *)
  lt_int : F -> Z -> bool;       (* x < n, n an int *)
  div_int : F -> Z -> F;         (* x / n, n an int *)
  fixed : nat -> F -> string     (* f"{x:.kf}" *)
}.

Module QFloat.

(** Nearest integer of a non-negative rational, ties to even. *)
Definition round_half_even (q : Q) : Z :=
  let n := Qnum q in
  let d := Zpos (Qden q) in
  let fl := n / d in
  let r := n mod d in
  if 2 * r <? d then fl
  else if d <? 2 * r then fl + 1
  else if Z.even fl then fl else fl + 1.

Definition dec (n : Z) : string := NilZero.string_of_uint (N.to_uint (Z.to_N n)).

Fixpoint zeros (k : nat) : string :=
  match k with
  | O => EmptyString
  | S k' => String "0"%char (zeros k')
  end.

Definition to_fixed (k : nat) (q : Q) : string :=
  let scale := 10 ^ Z.of_nat k in
  let m := round_half_even (Qabs q * inject_Z scale) in
  let frac := dec (m mod scale) in
  (if Qle_bool 0 q then EmptyString else "-")
    ++ dec (m / scale)
    ++ match k with
       | O => EmptyString
       | _ => "." ++ zeros (k - String.length frac) ++ frac
       end.

#[global] Instance float : Float Q := {|
  fsub := Qminus;
  ge_one := fun x => Qle_bool 1 x;
  int_div := fun n x => Qdiv (inject_Z n) x;
  lt_int := fun x n => negb (Qle_bool (inject_Z n) x);
  div_int := fun x n => Qdiv x (inject_Z n);
  fixed := to_fixed
|}.

End QFloat.

(* ------------------------------------------------------------------ *)
(** ** NetworkMonitor                                                   *)
(* ------------------------------------------------------------------ *)

Record NetworkMonitor (F : Type) : Type := mkMon {
  last_rx : Z;
  last_tx : Z;
  last_time : F
}.
Arguments mkMon {F} _ _ _.
Arguments last_rx {F} _.
Arguments last_tx {F} _.
Arguments last_time {F} _.

(** What one turn of the monitor loop gets from outside: the outcome of the
    probe, of the second probe (looked at only when the first failed), of
    the read of [/proc/net/dev], and the reading of [time.time()]. *)
Record tick (F : Type) : Type := mkTick {
  first_probe : completed;
  retry_probe : completed;
  netdev : completed;
  now : F
}.
Arguments mkTick {F} _ _ _ _.
Arguments first_probe {F} _.
Arguments retry_probe {F} _.
Arguments netdev {F} _.
Arguments now {F} _.

Inductive outcome : Type :=
| Stopped      (* [self.running] was cleared: the loop condition failed *)
| Broke.       (* [break] after the error signal *)

Module Mon.

Definition ping_cmd : list string :=
  ["shell"; "ping"; "-c"; "1"; "-w"; "1"; "223.5.5.5"].
Definition ping_ok : string := "1 packets transmitted, 1 received".
Definition ping_lost : string := "网络连接断开！Ping 丢包。".

(** Body of the [for] loop of [get_traffic_stats]: one line, the totals
    before and after. *)
Definition parse_line (totals : Z * Z) (line : string) : Z * Z :=
  if Py.contains ":" line then
    let parts := Py.split_on ":" line in
    let iface := Py.strip (nth 0 parts EmptyString) in
    if String.eqb iface "lo" then totals
    else
      let data := Py.split (nth 1 parts EmptyString) in
      if (9 <=? List.length data)%nat then
        match Py.int (nth 0 data EmptyString), Py.int (nth 8 data EmptyString) with
        | Some rx, Some tx => (fst totals + rx, snd totals + tx)
        | _, _ => totals
        end
      else totals
  else totals.

Definition parse (output : string) : Z * Z :=
  fold_left parse_line (Py.split_on Py.LF output) (0, 0).

(** [NetworkMonitor.get_traffic_stats]. *)
Definition get_traffic_stats (adb : AdbWorker) (sys : os) : list effect * (Z * Z) :=
  let '(e, output) := Adb.run_cmd adb ["shell"; "cat"; "/proc/net/dev"] sys in
  match output with
  | Some out => if Py.truthy out then (e, parse out) else (e, (0, 0))
  | None => (e, (0, 0))
  end.

Section Thread.
Context {F : Type} `{Float F}.

(** [NetworkMonitor.format_speed]. *)
Definition format_speed (bytes_per_sec : F) : string :=
  if lt_int bytes_per_sec 1024 then fixed 0 bytes_per_sec ++ " B/s"
  else if lt_int bytes_per_sec (1024 * 1024)
       then fixed 1 (div_int bytes_per_sec 1024) ++ " KB/s"
       else fixed 2 (div_int bytes_per_sec (1024 * 1024)) ++ " MB/s".

(** Lines 214-218: the interval and, when it is at least one second, the
    two rates. *)
Definition rates (self : NetworkMonitor F) (current_rx current_tx : Z)
           (current_time : F) : option (F * F) :=
  let duration := fsub current_time (last_time self) in
  if ge_one duration
  then Some (int_div (current_rx - last_rx self) duration,
             int_div (current_tx - last_tx self) duration)
  else None.

Definition speed_text (rx_speed tx_speed : F) : string :=
  "⬇️ " ++ format_speed rx_speed ++ "   ⬆️ " ++ format_speed tx_speed.

(** Step 2 of the loop body: the traffic sample. *)
Definition sample (adb : AdbWorker) (self : NetworkMonitor F) (t : tick F)
  : list effect * NetworkMonitor F :=
  let '(e, (current_rx, current_tx)) :=
    get_traffic_stats adb (fun _ => netdev t) in
  let current_time := now t in
  match rates self current_rx current_tx current_time with
  | Some (rx_speed, tx_speed) =>
      ((e ++ [SpeedSignal (speed_text rx_speed tx_speed); Sleep 1000])%list,
       mkMon current_rx current_tx current_time)
  | None => ((e ++ [Sleep 1000])%list, self)
  end.

Definition probe (adb : AdbWorker) (c : completed) : list effect * bool :=
  let '(e, result) := Adb.run_cmd adb ping_cmd (fun _ => c) in
  (e, Adb.in_opt ping_ok result).

(** One turn of the [while] loop; [false] in the last component is
    [break]. *)
Definition loop_body (adb : AdbWorker) (self : NetworkMonitor F) (t : tick F)
  : list effect * NetworkMonitor F * bool :=
  let '(e1, ok1) := probe adb (first_probe t) in
  if ok1 then
    let '(e3, self') := sample adb self t in
    ((e1 ++ e3)%list, self', true)
  else
    let '(e2, ok2) := probe adb (retry_probe t) in
    if ok2 then
      let '(e3, self') := sample adb self t in
      ((e1 ++ [Sleep 500] ++ e2 ++ e3)%list, self', true)
    else
      ((e1 ++ [Sleep 500] ++ e2 ++ [ErrorSignal ping_lost])%list, self, false).

(** The [while self.running] loop: one [tick] per turn taken before
    [self.running] is cleared from outside. *)
Fixpoint loop (adb : AdbWorker) (self : NetworkMonitor F) (ticks : list (tick F))
  : list effect * NetworkMonitor F * outcome :=
  match ticks with
  | [] => ([], self, Stopped)
  | t :: later =>
      let '(e1, self1, continue) := loop_body adb self t in
      if continue then
        let '(e2, self2, how) := loop adb self1 later in
        ((e1 ++ e2)%list, self2, how)
      else (e1, self1, Broke)
  end.

(** [NetworkMonitor.run]: the baseline, then the loop. *)
Definition run (adb : AdbWorker) (first_read : completed) (start : F)
           (ticks : list (tick F))
  : list effect * NetworkMonitor F * outcome :=
  let '(e0, (rx, tx)) := get_traffic_stats adb (fun _ => first_read) in
  let '(e, self, how) := loop adb (mkMon rx tx start) ticks in
  ((e0 ++ e)%list, self, how).

End Thread.

End Mon.

(* ------------------------------------------------------------------ *)
(** ** BugReportThread                                                  *)
(* ------------------------------------------------------------------ *)

(** What the capture thread gets from outside: the date, the directory of
    the program, the time stamp of the archive name, whether the target
    directory exists, the error of [os.makedirs] if it raises, and the
    answers to the processes it starts. *)
Record capture_env : Type := mkCapture {
  date_str : string;
  base_path : string;
  stamp : string;
  dir_exists : bool;
  makedirs_error : option string;
  capture_os : os
}.

Module Bug.

(** [s.replace(" ", "_")]. *)
Fixpoint underscores (s : string) : string :=
  match s with
  | EmptyString => EmptyString
  | String c rest =>
      String (if Ascii.eqb c " "%char then "_"%char else c) (underscores rest)
  end.

(** [BugReportThread.run], for a thread built with [error_msg];
    [path_join] is [os.path.join]. *)
Definition run (path_join : string -> string -> string)
           (adb : AdbWorker) (error_msg : string) (env : capture_env)
  : list effect :=
  let '(e1, model) :=
    Adb.run_cmd adb ["shell"; "getprop"; "ro.product.model"] (capture_os env) in
  let model := if Py.truthy_opt model
               then match model with Some m => m | None => "Unknown" end
               else "Unknown" in
  let model := underscores (Py.strip model) in
  let dir_name := date_str env ++ "-" ++ model ++ "-NetworkError" in
  let save_dir := path_join (base_path env) dir_name in
  match Adb.capture_bugreport path_join adb save_dir (stamp env) (dir_exists env)
                              (makedirs_error env) (capture_os env) with
  | (e2, inl _) => (e1 ++ e2 ++ [FinishedSignal save_dir error_msg])%list
  | (e2, inr e) => (e1 ++ e2 ++ [FinishedSignal EmptyString e])%list
  end.

End Bug.

(* ------------------------------------------------------------------ *)
(** ** MainWindow                                                       *)
(* ------------------------------------------------------------------ *)

(** The fields of the window that its slots read back.  Labels, the
    progress bar and the enabled state of the widgets are written but never
    read by the slots and are left out. *)
Record MainWindow : Type := mkWin {
  test_duration : Z;
  remaining_time : Z;
  is_testing : bool;
  has_triggered_bugreport : bool;
  btn_start_text : string
}.

(** What a slot gets from outside when it runs: the bridge object as it is
    then, the answers to the processes the slot starts, the two spin boxes
    and the button pressed in a question dialog. *)
Record slot_env : Type := mkSlot {
  bridge : AdbWorker;
  slot_os : os;
  spin_min : Z;
  spin_sec : Z;
  answer_yes : bool
}.

Module Win.

Definition nl : string := String Py.LF EmptyString.

Definition start_label : string := "开始测试".
Definition resume_label : string := "继续测试".
Definition no_route : string := "无默认路由".
Definition abort_title : string := "测试异常中止".

Definition init : MainWindow := mkWin 30 30 false false start_label.

Definition set_flag (self : MainWindow) (b : bool) : MainWindow :=
  mkWin (test_duration self) (remaining_time self) (is_testing self) b
        (btn_start_text self).

(** [MainWindow.stop_test_internal]. *)
Definition stop_test_internal (self : MainWindow) (is_pause : bool)
  : list effect * MainWindow :=
  ([TimerStop; SwipeTimerStop; MonitorStop],
   mkWin (test_duration self) (remaining_time self) false
         (has_triggered_bugreport self)
         (if is_pause && (0 <? remaining_time self)
          then resume_label else start_label)).

(** [MainWindow.start_new_test]. *)
Definition start_new_test (self : MainWindow) (env : slot_env)
  : list effect * MainWindow :=
  let self := set_flag self false in
  if negb (Py.truthy_opt (device_id (bridge env)))
  then ([Warning "错误" "未连接设备！"], self)
  else
    let duration := spin_min env * 60 + spin_sec env in
    let self := mkWin duration (remaining_time self) (is_testing self)
                      (has_triggered_bugreport self) (btn_start_text self) in
    if duration <=? 0
    then ([Warning "提示" "请设置有效的执行时间"], self)
    else
      let '(e1, dev_info) := Adb.get_device_info (bridge env) (slot_os env) in
      let '(e2, net_type) := Adb.get_network_type (bridge env) (slot_os env) in
      let started :=
        ([MonitorStart; TimerStart 1000; SwipeTimerStart 2000],
         mkWin duration duration true (has_triggered_bugreport self)
               (btn_start_text self)) in
      if Py.contains no_route net_type then
        let ask := Question "网络警告"
                     ("当前检测网络为: " ++ net_type ++ nl
                      ++ "可能无法正常测试，是否继续？") in
        if answer_yes env
        then ((e1 ++ e2 ++ [ask] ++ fst started)%list, snd started)
        else ((e1 ++ e2 ++ [ask])%list, self)
      else ((e1 ++ e2 ++ fst started)%list, snd started).

(** [MainWindow.resume_test]. *)
Definition resume_test (self : MainWindow) : list effect * MainWindow :=
  ([MonitorStart; TimerStart 1000; SwipeTimerStart 2000],
   mkWin (test_duration self) (remaining_time self) true
         (has_triggered_bugreport self) (btn_start_text self)).

(** [MainWindow.on_start_clicked]. *)
Definition on_start_clicked (self : MainWindow) (env : slot_env)
  : list effect * MainWindow :=
  if String.eqb (btn_start_text self) resume_label
  then resume_test self
  else start_new_test self env.

(** [MainWindow.restart_test]. *)
Definition restart_test (self : MainWindow) (env : slot_env)
  : list effect * MainWindow :=
  start_new_test self env.

(** [MainWindow.stop_test_manual]. *)
Definition stop_test_manual (self : MainWindow) : list effect * MainWindow :=
  stop_test_internal self true.

(** [MainWindow.reset_start_button]. *)
Definition reset_start_button (self : MainWindow) : list effect * MainWindow :=
  if negb (is_testing self)
  then ([], mkWin (test_duration self) (remaining_time self) (is_testing self)
                  (has_triggered_bugreport self) start_label)
  else ([], self).

(** [MainWindow.finish_test]. *)
Definition finish_test (self : MainWindow) : list effect * MainWindow :=
  let '(e, self) := stop_test_internal self false in
  ((e ++ [Information "测试完成"
            ("✅ 指定时间的自动化测试已顺利完成。" ++ nl
             ++ "期间网络连接保持正常。")])%list, self).

(** [MainWindow.on_timer_tick]. *)
Definition on_timer_tick (self : MainWindow) : list effect * MainWindow :=
  let self := mkWin (test_duration self) (remaining_time self - 1)
                    (is_testing self) (has_triggered_bugreport self)
                    (btn_start_text self) in
  if remaining_time self <=? 0 then finish_test self else ([], self).

(** The brand test of [on_net_error]. *)
Definition is_xiaomi (brand : option string) : bool :=
  match brand with
  | Some b =>
      Py.truthy b
      && (Py.contains "xiaomi" (Py.lower b) || Py.contains "redmi" (Py.lower b))
  | None => false
  end.

Definition failure_text (error_msg : string) : string :=
  "❌ 检测到网络故障！" ++ nl ++ nl ++ error_msg ++ nl ++ nl
    ++ "测试已立即停止。".

(** [MainWindow.on_net_error]. *)
Definition on_net_error (self : MainWindow) (env : slot_env) (error_msg : string)
  : list effect * MainWindow :=
  let '(e0, self) := stop_test_internal self false in
  let surface := Critical abort_title (failure_text error_msg) in
  if negb (has_triggered_bugreport self) then
    let '(e1, brand) := Adb.get_brand (bridge env) (slot_os env) in
    if is_xiaomi brand
    then ((e0 ++ e1 ++ [LogDialogShow; BugReportStart error_msg])%list,
          set_flag self true)
    else ((e0 ++ e1 ++ [surface])%list, self)
  else ((e0 ++ [surface])%list, self).

(** The message composed by [on_bugreport_finished]. *)
Definition final_message (save_path error_msg : string) : string :=
  if Py.truthy save_path
  then "❌ 检测到网络故障！" ++ nl ++ nl ++ error_msg ++ nl ++ nl
         ++ "✅ 系统日志已保存至:" ++ nl ++ save_path
  else "❌ 检测到网络故障！" ++ nl ++ nl ++ error_msg ++ nl ++ nl
         ++ "⚠️ 日志抓取失败: " ++ error_msg.

(** [MainWindow.on_bugreport_finished]. *)
Definition on_bugreport_finished (self : MainWindow) (save_path error_msg : string)
  : list effect * MainWindow :=
  ([LogDialogAccept; Critical abort_title (final_message save_path error_msg)],
   self).

(** The signals and clicks the window reacts to. *)
Inductive event : Type :=
| StartClicked (env : slot_env)
| RestartClicked (env : slot_env)
| StopClicked
| SpinChanged
| TimerTick
| NetError (env : slot_env) (error_msg : string)
| BugReportFinished (save_path error_msg : string).

Definition react (self : MainWindow) (ev : event) : list effect * MainWindow :=
  match ev with
  | StartClicked env => on_start_clicked self env
  | RestartClicked env => restart_test self env
  | StopClicked => stop_test_manual self
  | SpinChanged => reset_start_button self
  | TimerTick => on_timer_tick self
  | NetError env msg => on_net_error self env msg
  | BugReportFinished path msg => on_bugreport_finished self path msg
  end.

Fixpoint reacts (self : MainWindow) (evs : list event) : list effect * MainWindow :=
  match evs with
  | [] => ([], self)
  | ev :: later =>
      let '(e1, self1) := react self ev in
      let '(e2, self2) := reacts self1 later in
      ((e1 ++ e2)%list, self2)
  end.

(** Does the event run [start_new_test] in this state? *)
Definition fresh_start (self : MainWindow) (ev : event) : bool :=
  match ev with
  | StartClicked _ => negb (String.eqb (btn_start_text self) resume_label)
  | RestartClicked _ => true
  | _ => false
  end.

(** The slot connected to [finished_signal], fed with what the capture
    thread emitted. *)
Definition deliver (self : MainWindow) (emitted : list effect)
  : list effect * MainWindow :=
  fold_left
    (fun acc e =>
       match e with
       | FinishedSignal path msg =>
           let '(e', self') := on_bugreport_finished (snd acc) path msg in
           ((fst acc ++ e')%list, self')
       | _ => acc
       end)
    emitted ([], self).

End Win.

(* ------------------------------------------------------------------ *)
(** ** Reading traces, and the vocabulary of the statements             *)
(* ------------------------------------------------------------------ *)

Module Obs.

Definition is_error (e : effect) : bool :=
  match e with ErrorSignal _ => true | _ => false end.
Definition is_speed (e : effect) : bool :=
  match e with SpeedSignal _ => true | _ => false end.
Definition is_capture (e : effect) : bool :=
  match e with BugReportStart _ => true | _ => false end.
Definition is_question (e : effect) : bool :=
  match e with Question _ _ => true | _ => false end.
Definition is_turn_end (e : effect) : bool :=
  match e with Sleep 1000 => true | _ => false end.

Definition errors (es : list effect) : list effect := filter is_error es.
Definition speeds (es : list effect) : list effect := filter is_speed es.
Definition captures (es : list effect) : nat := List.length (filter is_capture es).

Definition argv_eqb (a b : list string) : bool :=
  if list_eq_dec string_dec a b then true else false.

(** Did the process answer like a successful probe? *)
Definition answered (c : completed) : bool :=
  match c with
  | Completed _ out => Adb.in_opt Mon.ping_ok (Some (Py.strip out))
  | Raised _ => false
  end.

(** The probes of a trace, in order: for every run of the ping command,
    whether it succeeded. *)
Fixpoint probe_results (adb : AdbWorker) (es : list effect) : list bool :=
  match es with
  | [] => []
  | Spawn argv c :: rest =>
      if argv_eqb argv (Adb.cmdline adb Mon.ping_cmd)
      then answered c :: probe_results adb rest
      else probe_results adb rest
  | _ :: rest => probe_results adb rest
  end.

Definition ping (adb : AdbWorker) : list string := Adb.cmdline adb Mon.ping_cmd.

(** The turn that ends the loop: probe, half a second, probe, error. *)
Definition final_turn (adb : AdbWorker) (c1 c2 : completed) : list effect :=
  [Spawn (ping adb) c1; Sleep 500; Spawn (ping adb) c2; ErrorSignal Mon.ping_lost].

(** Two failed probes in a row. *)
Fixpoint two_failures (ps : list bool) : bool :=
  match ps with
  | [] => false
  | p :: rest =>
      match rest with
      | q :: _ => (negb p && negb q) || two_failures rest
      | [] => false
      end
  end.


(** The text before and after the first colon of a line. *)
Fixpoint cut (line : string) : option (string * string) :=
  match line with
  | EmptyString => None
  | String c rest =>
      if Ascii.eqb c ":"%char then Some (EmptyString, rest)
      else match cut rest with
           | Some (name, fields) => Some (String c name, fields)
           | None => None
           end
  end.

(** A line with at most one colon. *)
Definition plain (line : string) : bool :=
  match cut line with
  | Some (_, fields) => negb (Py.contains ":" fields)
  | None => true
  end.

(** The counters a line of [/proc/net/dev] stands for, in the words of
    the specification: interface name before the colon, loopback left
    out, receive bytes in field 0 and transmit bytes in field 8 after the
    colon, nothing for a line that is short or not numeric there. *)
Definition counters_of_line (line : string) : Z * Z :=
  match cut line with
  | None => (0, 0)
  | Some (name, fields) =>
      if String.eqb (Py.strip name) "lo" then (0, 0)
      else match nth_error (Py.split fields) 0, nth_error (Py.split fields) 8 with
           | Some f0, Some f8 =>
               match Py.int f0, Py.int f8 with
               | Some rx, Some tx => (rx, tx)
               | _, _ => (0, 0)
               end
           | _, _ => (0, 0)
           end
  end.

Definition sum_counters (cs : list (Z * Z)) : Z * Z :=
  (fold_right Z.add 0 (map fst cs), fold_right Z.add 0 (map snd cs)).



(** The flag as a number. *)
Definition flag_count (self : MainWindow) : nat :=
  if has_triggered_bugreport self then 1%nat else 0%nat.

Definition is_critical (e : effect) : bool :=
  match e with Critical _ _ => true | _ => false end.

(** The texts of the error dialogs of a trace. *)
Fixpoint criticals (es : list effect) : list string :=
  match es with
  | [] => []
  | Critical _ text :: rest => text :: criticals rest
  | _ :: rest => criticals rest
  end.

(** No event of the sequence runs [start_new_test]. *)
Fixpoint same_session (self : MainWindow) (evs : list Win.event) : bool :=
  match evs with
  | [] => true
  | ev :: later =>
      negb (Win.fresh_start self ev)
      && same_session (snd (Win.react self ev)) later
  end.

End Obs.

(* ------------------------------------------------------------------ *)
(** ** Concrete inputs                                                  *)
(* ------------------------------------------------------------------ *)

Module Cases.

Definition nl : string := String Py.LF EmptyString.
Definition tab : string := String "009"%char EmptyString.

Definition phone : AdbWorker := mkAdb "adb" (Some "8a3f01").
Definition no_phone : AdbWorker := mkAdb "adb" None.

Definition ping_good : completed :=
  Completed 0 ("PING 223.5.5.5 (223.5.5.5) 56(84) bytes of data." ++ nl
               ++ "1 packets transmitted, 1 received, 0% packet loss, time 0ms" ++ nl).

Definition ping_bad : completed :=
  Completed 1 ("PING 223.5.5.5 (223.5.5.5) 56(84) bytes of data." ++ nl
               ++ "1 packets transmitted, 0 received, 100% packet loss, time 0ms" ++ nl).

(** [/proc/net/dev] with the loopback, two interfaces and a short line. *)
Definition proc_net_dev : string :=
  Py.join nl
    ["Inter-|   Receive                    |  Transmit";
     " face |bytes packets errs drop fifo frame compressed multicast|bytes packets";
     "    lo:   5000   50 0 0 0 0 0 0     5000   50 0 0 0 0 0 0";
     " wlan0: 120000  900 0 0 0 0 0 0    34000  410 0 0 0 0 0 0";
     "dummy0: 7 7 7";
     "rmnet0:   1000   10 0 0 0 0 0 0      600    9 0 0 0 0 0 0"].

(** The same device after a reboot: the counters start again. *)
Definition proc_net_dev_reset : string :=
  Py.join nl
    ["    lo:    100    1 0 0 0 0 0 0      100    1 0 0 0 0 0 0";
     " wlan0:   2000   20 0 0 0 0 0 0     1000   10 0 0 0 0 0 0"].

Definition devices_one : os := fun _ =>
  Completed 0 ("List of devices attached" ++ nl ++ "8a3f01" ++ tab ++ "device"
               ++ nl ++ nl).

Definition devices_none : os := fun _ =>
  Completed 0 ("List of devices attached" ++ nl ++ nl).

Definition turn (p1 p2 : completed) (text : string) (at_time : Q) : tick Q :=
  mkTick p1 p2 (Completed 0 text) at_time.

(** Four turns: a good probe, a lost probe made good by the retry, two lost
    probes, and a turn that is never taken. *)
Definition four_turns : list (tick Q) :=
  [turn ping_good ping_good proc_net_dev (1 # 1);
   turn ping_bad ping_good proc_net_dev (2 # 1);
   turn ping_bad ping_bad proc_net_dev (3 # 1);
   turn ping_good ping_good proc_net_dev (4 # 1)].

Definition getprop (brand : string) : os := fun argv =>
  if Obs.argv_eqb argv ["adb"; "-s"; "8a3f01"; "shell"; "getprop"; "ro.product.brand"]
  then Completed 0 (brand ++ nl)
  else Completed 0 EmptyString.

Definition slot (brand : string) : slot_env :=
  mkSlot phone (getprop brand) 0 30 true.

(** A capture whose target directory cannot be created. *)
Definition capture_denied : capture_env :=
  mkCapture "2024-05-01" "/opt/nettest" "1714550400" false
            (Some "[Errno 13] Permission denied: '/opt/nettest/2024-05-01-M2101K6G-NetworkError'")
            (fun _ => Completed 0 ("M2101K6G" ++ nl)).

Definition capture_fine : capture_env :=
  mkCapture "2024-05-01" "/opt/nettest" "1714550400" false None
            (fun _ => Completed 0 ("M2101K6G" ++ nl)).

End Cases.

(* ------------------------------------------------------------------ *)
(** ** The rest of the bridge and of the window                         *)
(* ------------------------------------------------------------------ *)

(** What [find_adb] asks the host: whether the program is frozen, where
    its bundle and its working directory are, the name of the system, and
    which paths exist. *)
Record host : Type := mkHost {
  frozen : bool;
  meipass : string;
  cwd : string;
  system : string;
  path_exists : string -> bool
}.

Module Locate.

(** [posixpath.join] of two components. *)
Definition posix_join (a b : string) : string :=
  if prefix "/" b then b
  else if String.eqb a EmptyString then b
  else if String.eqb (substring (String.length a - 1) 1 a) "/" then a ++ b
  else a ++ "/" ++ b.

Section Find.

(** [os.path.join]; with three components it joins from the left. *)
Variable path_join : string -> string -> string.

Definition adb_name (h : host) : string :=
  if String.eqb (system h) "Windows" then "adb.exe" else "adb".

(** [AdbWorker.find_adb]. *)
Definition find_adb (h : host) : string :=
  let base_path := if frozen h then meipass h else cwd h in
  let local_adb := path_join base_path (adb_name h) in
  if path_exists h local_adb then local_adb
  else
    let tools_adb := path_join (path_join base_path "platform-tools") (adb_name h) in
    if path_exists h tools_adb then tools_adb
    else adb_name h.

(** [AdbWorker.__init__]. *)
Definition init (h : host) : AdbWorker := mkAdb (find_adb h) None.

End Find.

End Locate.

Module Clock.

(** [divmod] twice, as in [update_timer_display]: hours, minutes, seconds. *)
Definition hms (remaining_time : Z) : Z * Z * Z :=
  let m := remaining_time / 60 in
  let s := remaining_time mod 60 in
  let h := m / 60 in
  let m := m mod 60 in
  (h, m, s).

(** [f"{n:02d}"]. *)
Definition two_digits (n : Z) : string :=
  if n <? 0 then "-" ++ QFloat.dec (- n)
  else if n <? 10 then "0" ++ QFloat.dec n
  else QFloat.dec n.

(** The text [update_timer_display] puts on the timer label. *)
Definition timer_text (remaining_time : Z) : string :=
  let '(h, m, s) := hms remaining_time in
  two_digits h ++ ":" ++ two_digits m ++ ":" ++ two_digits s.

End Clock.

Module More.

(** No character of the string is a space. *)
Fixpoint no_space (s : string) : bool :=
  match s with
  | EmptyString => true
  | String c rest => negb (Py.isspace c) && no_space rest
  end.

(** A device handle that is absent, or a word. *)
Definition handle_ok (self : AdbWorker) : bool :=
  match device_id self with
  | None => true
  | Some d => Py.truthy d && no_space d
  end.

Definition is_finished (e : effect) : bool :=
  match e with FinishedSignal _ _ => true | _ => false end.
Definition is_spawn (e : effect) : bool :=
  match e with Spawn _ _ => true | _ => false end.
Definition is_information (e : effect) : bool :=
  match e with Information _ _ => true | _ => false end.

Definition stop_effects : list effect := [TimerStop; SwipeTimerStop; MonitorStop].
Definition start_effects : list effect :=
  [MonitorStart; TimerStart 1000; SwipeTimerStart 2000].

Definition ip_cmd : list string := ["shell"; "ip"; "-o"; "-4"; "addr"; "show"; "up"].
Definition no_connection : string := "无网络连接 (未检测到有效IP)".

(** One of the interface names the classifier knows is in the listing. *)
Definition interface_found (ip_info : option string) : bool :=
  Adb.in_opt "wlan" ip_info || Adb.in_opt "rmnet" ip_info
  || Adb.in_opt "ccmni" ip_info || Adb.in_opt "eth" ip_info.

Definition done_text : string :=
  "✅ 指定时间的自动化测试已顺利完成。" ++ Win.nl ++ "期间网络连接保持正常。".

(** The process raised, or printed nothing but blanks. *)
Definition no_output (c : completed) : bool :=
  match c with
  | Raised _ => true
  | Completed _ out => negb (Py.truthy (Py.strip out))
  end.

Definition a_host (present : list string) : host :=
  mkHost false "/tmp/_MEI1" "/opt/nettest" "Linux"
         (fun p => existsb (String.eqb p) present).

End More.


(* ------------------------------------------------------------------ *)
(** ** Strings                                                          *)
(* ------------------------------------------------------------------ *)

Section Strings.

Lemma prefix_iff (a b : string) :
  prefix a b = true <-> exists r, b = a ++ r.
Proof.
  revert b; induction a as [|c a IH]; intros b; simpl.
  - destruct b; split; eauto.
  - destruct b as [|d b]; simpl.
    + split; [discriminate | intros [r Hr]; discriminate].
    + destruct (ascii_dec c d) as [->|Hne].
      * rewrite IH. split; intros [r Hr]; exists r; congruence.
      * split; [discriminate | intros [r Hr]; congruence].
Qed.

Lemma contains_iff (sub s : string) :
  Py.contains sub s = true <-> exists pre post, s = pre ++ sub ++ post.
Proof.
  induction s as [|c s IH]; cbn [Py.contains].
  - rewrite prefix_iff. split.
    + intros [r Hr]. exists EmptyString, r. exact Hr.
    + intros [pre [post Hp]]. destruct pre; simpl in Hp.
      * exists post. exact Hp.
      * discriminate.
  - rewrite orb_true_iff, prefix_iff, IH. split.
    + intros [[r Hr] | [pre [post Hp]]].
      * exists EmptyString, r. exact Hr.
      * exists (String c pre), post. simpl. congruence.
    + intros [pre [post Hp]]. destruct pre as [|d pre]; simpl in Hp.
      * left. exists post. exact Hp.
      * right. exists pre, post. congruence.
Qed.

Lemma append_assoc (a b c : string) : (a ++ b) ++ c = a ++ b ++ c.
Proof. induction a; simpl; congruence. Qed.

Lemma contains_app_r (sub a b : string) :
  Py.contains sub b = true -> Py.contains sub (a ++ b) = true.
Proof.
  rewrite !contains_iff. intros [pre [post ->]].
  exists (a ++ pre), post. now rewrite append_assoc.
Qed.

Lemma contains_app_l (sub a b : string) :
  Py.contains sub a = true -> Py.contains sub (a ++ b) = true.
Proof.
  rewrite !contains_iff. intros [pre [post ->]].
  exists pre, (post ++ b). now rewrite !append_assoc.
Qed.

Lemma contains_refl_app (sub b : string) : Py.contains sub (sub ++ b) = true.
Proof. apply contains_iff. now exists EmptyString, b. Qed.



Lemma truthy_true (s : string) : Py.truthy s = true <-> s <> EmptyString.
Proof.
  unfold Py.truthy. rewrite negb_true_iff. split.
  - intros H ->. discriminate.
  - intros H. destruct s; [contradiction | reflexivity].
Qed.

End Strings.

(* ------------------------------------------------------------------ *)
(** ** The device bridge                                                *)
(* ------------------------------------------------------------------ *)

Section Bridge.

Variable self : AdbWorker.
Variable args : list string.
Variable sys : os.

Lemma run_cmd_result :
  Py.truthy (adb_path self) = true ->
  snd (Adb.run_cmd self args sys)
  = match sys (Adb.cmdline self args) with
    | Completed _ out => Some (Py.strip out)
    | Raised _ => None
    end.
Proof.
  intros Hp. unfold Adb.run_cmd. rewrite Hp. simpl.
  destruct (sys (Adb.cmdline self args)); reflexivity.
Qed.

Lemma run_cmd_trace :
  Py.truthy (adb_path self) = true ->
  fst (Adb.run_cmd self args sys)
  = [Spawn (Adb.cmdline self args) (sys (Adb.cmdline self args))].
Proof.
  intros Hp. unfold Adb.run_cmd. rewrite Hp. simpl.
  destruct (sys (Adb.cmdline self args)); reflexivity.
Qed.

Lemma cmdline_selector (d : string) :
  device_id self = Some d -> d <> EmptyString ->
  Adb.cmdline self args = (adb_path self :: "-s" :: d :: args)%list.
Proof.
  intros Hd Hne. unfold Adb.cmdline. rewrite Hd. simpl.
  apply truthy_true in Hne. rewrite Hne. reflexivity.
Qed.

End Bridge.

(** C4, as the specification states it, fails: a process that exits with a
    non-zero status still hands its output to the caller.  Here the probe
    of an unreachable address, which [ping] ends with status 1. *)
Lemma run_cmd_nonzero_exit_has_output :
  let self := mkAdb "adb" (Some "8a3f01") in
  let sys : os := fun _ =>
    Completed 1 "1 packets transmitted, 0 received, 100% packet loss" in
  snd (Adb.run_cmd self Mon.ping_cmd sys)
  = Some "1 packets transmitted, 0 received, 100% packet loss"
  /\ snd (Adb.run_cmd self Mon.ping_cmd sys) <> None.
Proof. split; [reflexivity | discriminate]. Qed.

(** C4, amended: with a tool path set, [run_cmd] returns no output exactly
    when the call of [subprocess.run] raises, which it does when the
    process cannot be started and also when its output cannot be decoded;
    when the call returns, whatever the exit status it reports, [run_cmd]
    yields the stripped standard output; a known, non-empty device id is
    passed as [-s <id>] right after the tool. *)
Theorem run_cmd_contract (self : AdbWorker) (args : list string) (sys : os) :
  Py.truthy (adb_path self) = true ->
  (snd (Adb.run_cmd self args sys) = None
   <-> exists e, sys (Adb.cmdline self args) = Raised e)
  /\ (forall rc out, sys (Adb.cmdline self args) = Completed rc out ->
      snd (Adb.run_cmd self args sys) = Some (Py.strip out))
  /\ (forall d, device_id self = Some d -> d <> EmptyString ->
      fst (Adb.run_cmd self args sys)
      = [Spawn (adb_path self :: "-s" :: d :: args)%list
               (sys (adb_path self :: "-s" :: d :: args)%list)]).
Proof.
  intros Hp. repeat split.
  - rewrite run_cmd_result by exact Hp.
    destruct (sys (Adb.cmdline self args)) as [e|rc out]; [eauto | discriminate].
  - intros [e He]. rewrite run_cmd_result by exact Hp. now rewrite He.
  - intros rc out Hc. rewrite run_cmd_result by exact Hp. now rewrite Hc.
  - intros d Hd Hne. rewrite run_cmd_trace by exact Hp.
    now rewrite (cmdline_selector self args d Hd Hne).
Qed.

Lemma run_cmd_contract_witness :
  let self := mkAdb "adb" (Some "8a3f01") in
  let sys : os := fun _ => Completed 1 " lost " in
  snd (Adb.run_cmd self ["shell"; "true"] sys) = Some "lost"
  /\ fst (Adb.run_cmd self ["shell"; "true"] sys)
     = [Spawn ["adb"; "-s"; "8a3f01"; "shell"; "true"] (Completed 1 " lost ")].
Proof.
  intros self sys.
  destruct (run_cmd_contract self ["shell"; "true"] sys eq_refl) as [_ [Hout Hsel]].
  split.
  - exact (Hout 1 " lost " eq_refl).
  - apply (Hsel "8a3f01" eq_refl). discriminate.
Defined.

(* ------------------------------------------------------------------ *)
(** ** The network classifier and the start path                        *)
(* ------------------------------------------------------------------ *)

Lemma network_type_never_no_route (self : AdbWorker) (sys : os) :
  Py.contains Win.no_route (snd (Adb.get_network_type self sys)) = false.
Proof.
  unfold Adb.get_network_type.
  destruct (Adb.run_cmd self _ sys) as [e1 ping_res].
  destruct (Adb.run_cmd self ["shell"; "dumpsys"; "wifi"] sys) as [e2 wifi_dump].
  destruct (Adb.run_cmd self _ sys) as [e3 ip_info].
  destruct (Adb.in_opt "1 received" ping_res);
    (destruct ip_info as [info|]; [|vm_compute; reflexivity]);
    (destruct (Py.truthy info); [|vm_compute; reflexivity]);
    destruct (Py.contains "wlan" info), (Py.contains "rmnet" info),
      (Py.contains "ccmni" info), (Py.contains "eth" info);
    vm_compute; reflexivity.
Qed.

Lemma filter_app_nil {A} (f : A -> bool) (a b : list A) :
  filter f a = [] -> filter f b = [] -> filter f (a ++ b)%list = [].
Proof. intros Ha Hb. now rewrite filter_app, Ha, Hb. Qed.

Lemma run_cmd_asks_nothing (self : AdbWorker) (args : list string) (sys : os) :
  filter Obs.is_question (fst (Adb.run_cmd self args sys)) = [].
Proof.
  unfold Adb.run_cmd. destruct (negb _); [reflexivity|].
  destruct (sys _); reflexivity.
Qed.

(** C10: whatever the bridge answers, the status string of the classifier
    never holds the phrase that the start path tests for, so
    [start_new_test] never opens the warning question. *)
Theorem no_route_branch_dead (self : MainWindow) (env : slot_env) :
  Py.contains Win.no_route (snd (Adb.get_network_type (bridge env) (slot_os env)))
  = false
  /\ filter Obs.is_question (fst (Win.start_new_test self env)) = []
  /\ filter Obs.is_question (fst (Win.restart_test self env)) = []
  /\ filter Obs.is_question (fst (Win.on_start_clicked self env)) = [].
Proof.
  assert (Hstart : forall w, filter Obs.is_question (fst (Win.start_new_test w env)) = []).
  { intros w. unfold Win.start_new_test.
    destruct (negb (Py.truthy_opt _)); [reflexivity|].
    destruct (_ <=? 0); [reflexivity|].
    pose proof (network_type_never_no_route (bridge env) (slot_os env)) as Hn.
    assert (Hq2 : filter Obs.is_question
                    (fst (Adb.get_network_type (bridge env) (slot_os env))) = []).
    { unfold Adb.get_network_type.
      pose proof (run_cmd_asks_nothing (bridge env)
                    ["shell"; "ping"; "-c"; "1"; "-w"; "1"; "223.5.5.5"] (slot_os env)).
      pose proof (run_cmd_asks_nothing (bridge env)
                    ["shell"; "dumpsys"; "wifi"] (slot_os env)).
      pose proof (run_cmd_asks_nothing (bridge env)
                    ["shell"; "ip"; "-o"; "-4"; "addr"; "show"; "up"] (slot_os env)).
      destruct (Adb.run_cmd _ ["shell"; "ping"; "-c"; "1"; "-w"; "1"; "223.5.5.5"] _).
      destruct (Adb.run_cmd _ ["shell"; "dumpsys"; "wifi"] _).
      destruct (Adb.run_cmd _ ["shell"; "ip"; "-o"; "-4"; "addr"; "show"; "up"] _).
      simpl in *.
      assert (filter Obs.is_question (l ++ l0 ++ l1)%list = [])
        by (repeat apply filter_app_nil; assumption).
      destruct (match o1 with Some _ => _ | None => _ end);
        [assumption | destruct (Adb.in_opt _ _); assumption]. }
    assert (Hq1 : filter Obs.is_question
                    (fst (Adb.get_device_info (bridge env) (slot_os env))) = []).
    { unfold Adb.get_device_info.
      pose proof (run_cmd_asks_nothing (bridge env)
                    ["shell"; "getprop"; "ro.product.model"] (slot_os env)).
      pose proof (run_cmd_asks_nothing (bridge env)
                    ["shell"; "getprop"; "ro.build.version.release"] (slot_os env)).
      destruct (Adb.run_cmd _ ["shell"; "getprop"; "ro.product.model"] _).
      destruct (Adb.run_cmd _ ["shell"; "getprop"; "ro.build.version.release"] _).
      simpl in *. now apply filter_app_nil. }
    destruct (Adb.get_device_info _ _) as [e1 dev_info].
    destruct (Adb.get_network_type _ _) as [e2 net_type].
    simpl in Hn, Hq1, Hq2. rewrite Hn. simpl.
    repeat apply filter_app_nil; try assumption. reflexivity. }
  split; [apply network_type_never_no_route|].
  split; [apply Hstart|]. split; [apply Hstart|].
  unfold Win.on_start_clicked. destruct (String.eqb _ _); [reflexivity | apply Hstart].
Qed.


(* ------------------------------------------------------------------ *)
(** ** The presence monitor                                             *)
(* ------------------------------------------------------------------ *)

Section Presence.

Lemma poll_keeps_path (self : AdbWorker) (sys : os) :
  adb_path (snd (Adb.poll self sys)) = adb_path self.
Proof.
  unfold Adb.poll. destruct (sys _) as [e|rc out]; [reflexivity|].
  destruct (Adb.enumerate out) as [|d ds].
  - destruct (device_id self); reflexivity.
  - destruct (negb _); reflexivity.
Qed.

Lemma run_keeps_path (answers : list os) :
  forall self, adb_path (snd (Adb.run self answers)) = adb_path self.
Proof.
  induction answers as [|sys later IH]; intros self; simpl; [reflexivity|].
  pose proof (poll_keeps_path self sys) as Hk.
  destruct (Adb.poll self sys) as [e1 self1]. specialize (IH self1).
  destruct (Adb.run self1 later) as [e2 self2]. simpl in *. congruence.
Qed.






End Presence.



(* ------------------------------------------------------------------ *)
(** ** The network monitor: probes                                      *)
(* ------------------------------------------------------------------ *)

Section Probes.

Context {F : Type} `{Float F}.
Variable adb : AdbWorker.
Hypothesis tool : Py.truthy (adb_path adb) = true.

Lemma argv_eqb_refl (a : list string) : Obs.argv_eqb a a = true.
Proof. unfold Obs.argv_eqb. destruct (list_eq_dec string_dec a a); congruence. Qed.

Lemma cat_is_not_ping :
  Obs.argv_eqb (Adb.cmdline adb ["shell"; "cat"; "/proc/net/dev"])
               (Adb.cmdline adb Mon.ping_cmd) = false.
Proof.
  unfold Obs.argv_eqb, Adb.cmdline.
  destruct (list_eq_dec string_dec _ _) as [E|]; [|reflexivity].
  apply app_inv_head in E. apply app_inv_head in E. discriminate.
Qed.

Lemma probe_eq (c : completed) :
  Mon.probe adb c = ([Spawn (Obs.ping adb) c], Obs.answered c).
Proof.
  unfold Mon.probe, Adb.run_cmd. rewrite tool. simpl.
  destruct c; reflexivity.
Qed.

Lemma probe_results_app (a b : list effect) :
  Obs.probe_results adb (a ++ b)%list
  = (Obs.probe_results adb a ++ Obs.probe_results adb b)%list.
Proof.
  induction a as [|e a IH]; simpl; [reflexivity|].
  destruct e; try exact IH.
  destruct (Obs.argv_eqb _ _); simpl; congruence.
Qed.

Lemma stats_trace (sys : os) :
  fst (Mon.get_traffic_stats adb sys)
  = [Spawn (Adb.cmdline adb ["shell"; "cat"; "/proc/net/dev"])
           (sys (Adb.cmdline adb ["shell"; "cat"; "/proc/net/dev"]))].
Proof.
  unfold Mon.get_traffic_stats, Adb.run_cmd. rewrite tool. simpl.
  destruct (sys _) as [e|rc out]; [reflexivity|].
  destruct (Py.truthy (Py.strip out)); reflexivity.
Qed.

(** The traffic sample of a turn runs no probe, emits no error and ends the
    turn with the one-second sleep. *)
Lemma sample_quiet (self : NetworkMonitor F) (t : tick F) :
  Obs.probe_results adb (fst (Mon.sample adb self t)) = []
  /\ Obs.errors (fst (Mon.sample adb self t)) = []
  /\ List.length (filter Obs.is_turn_end (fst (Mon.sample adb self t))) = 1%nat.
Proof.
  unfold Mon.sample.
  pose proof (stats_trace (fun _ => netdev t)) as Ht.
  destruct (Mon.get_traffic_stats adb _) as [e [rx tx]]. simpl in Ht. subst e.
  destruct (Mon.rates self rx tx (now t)) as [[r1 r2]|]; simpl;
    rewrite cat_is_not_ping; auto.
Qed.

Lemma two_failures_after_ok (ps : list bool) :
  Obs.two_failures (true :: ps) = Obs.two_failures ps.
Proof. destruct ps; reflexivity. Qed.

Lemma two_failures_after_retry (ps : list bool) :
  Obs.two_failures (false :: true :: ps) = Obs.two_failures ps.
Proof. destruct ps; reflexivity. Qed.

(** The four facts about a run of the loop, by induction on its turns. *)
Lemma loop_probes (ticks : list (tick F)) :
  forall self,
    let r := Mon.loop adb self ticks in
    let es := fst (fst r) in
    let failed := Obs.two_failures (Obs.probe_results adb es) in
    Obs.errors es = (if failed then [ErrorSignal Mon.ping_lost] else [])
    /\ snd r = (if failed then Broke else Stopped)
    /\ (failed = true ->
        exists es' c1 c2,
          es = (es' ++ Obs.final_turn adb c1 c2)%list
          /\ Obs.answered c1 = false /\ Obs.answered c2 = false)
    /\ (failed = false ->
        List.length (filter Obs.is_turn_end es) = List.length ticks).
Proof.
  induction ticks as [|t later IH]; intros self; cbn zeta.
  - simpl. repeat split; try reflexivity. discriminate.
  - cbn [Mon.loop]. unfold Mon.loop_body. rewrite !probe_eq.
    destruct (sample_quiet self t) as [Hp [He Hn]].
    destruct (Mon.sample adb self t) as [e3 self1]. simpl in Hp, He, Hn.
    specialize (IH self1). cbn zeta in IH.
    destruct (Obs.answered (first_probe t)) eqn:A1.
    + destruct (Mon.loop adb self1 later) as [[e2 self2] how]. simpl in IH |- *.
      fold (Obs.ping adb). rewrite argv_eqb_refl, A1.
      rewrite probe_results_app, Hp, two_failures_after_ok. simpl.
      destruct IH as [I1 [I2 [I3 I4]]].
      unfold Obs.errors in *. rewrite filter_app, He. simpl.
      repeat split; try assumption.
      * intros Hf. destruct (I3 Hf) as [es' [c1 [c2 [-> [Hc1 Hc2]]]]].
        exists (Spawn (Obs.ping adb) (first_probe t) :: e3 ++ es')%list, c1, c2.
        repeat split; try assumption. simpl. now rewrite <- app_assoc.
      * intros Hf. rewrite filter_app, length_app, Hn, (I4 Hf). reflexivity.
    + destruct (Obs.answered (retry_probe t)) eqn:A2.
      * destruct (Mon.loop adb self1 later) as [[e2 self2] how]. simpl in IH |- *.
        fold (Obs.ping adb). rewrite !argv_eqb_refl, A1, A2.
        rewrite probe_results_app, Hp. simpl app.
        rewrite two_failures_after_retry.
        destruct IH as [I1 [I2 [I3 I4]]].
        unfold Obs.errors in *. rewrite filter_app, He. simpl.
        repeat split; try assumption.
        -- intros Hf. destruct (I3 Hf) as [es' [c1 [c2 [-> [Hc1 Hc2]]]]].
           exists (Spawn (Obs.ping adb) (first_probe t) :: Sleep 500
                     :: Spawn (Obs.ping adb) (retry_probe t) :: e3 ++ es')%list, c1, c2.
           repeat split; try assumption. simpl. now rewrite <- app_assoc.
        -- intros Hf. rewrite filter_app, length_app, Hn, (I4 Hf). reflexivity.
      * simpl. fold (Obs.ping adb). rewrite !argv_eqb_refl, A1, A2. simpl.
        repeat split; try reflexivity; try discriminate.
        intros _. exists [], (first_probe t), (retry_probe t). auto.
Qed.

End Probes.

(** C1: in every run of the monitor thread, an error signal is emitted
    exactly when two probes in a row failed, and then exactly one; the
    thread then leaves its loop by [break], and the last thing it did was a
    probe, the half-second pause, one more probe and the signal.  When no
    two probes in a row failed, no error is emitted and every turn ran to
    its end. *)
Theorem probe_retried_once
  {F : Type} `{Float F} (adb : AdbWorker) (first_read : completed) (start : F)
  (ticks : list (tick F)) :
  Py.truthy (adb_path adb) = true ->
  let r := Mon.run adb first_read start ticks in
  let es := fst (fst r) in
  let failed := Obs.two_failures (Obs.probe_results adb es) in
  Obs.errors es = (if failed then [ErrorSignal Mon.ping_lost] else [])
  /\ snd r = (if failed then Broke else Stopped)
  /\ (failed = true ->
      exists es' c1 c2,
        es = (es' ++ Obs.final_turn adb c1 c2)%list
        /\ Obs.answered c1 = false /\ Obs.answered c2 = false)
  /\ (failed = false ->
      List.length (filter Obs.is_turn_end es) = List.length ticks).
Proof.
  intros tool. unfold Mon.run.
  pose proof (stats_trace adb tool (fun _ => first_read)) as Ht.
  destruct (Mon.get_traffic_stats adb _) as [e0 [rx tx]]. simpl in Ht. subst e0.
  pose proof (loop_probes adb tool ticks (mkMon rx tx start)) as IH.
  cbn zeta in IH |- *.
  destruct (Mon.loop adb (mkMon rx tx start) ticks) as [[e self] how].
  simpl in IH |- *. rewrite (cat_is_not_ping adb).
  destruct IH as [I1 [I2 [I3 I4]]]. repeat split; try assumption.
  intros Hf. destruct (I3 Hf) as [es' [c1 [c2 [-> [Hc1 Hc2]]]]].
  exists (Spawn (Adb.cmdline adb ["shell"; "cat"; "/proc/net/dev"]) first_read :: es')%list,
    c1, c2.
  repeat split; assumption.
Qed.

Lemma probe_retried_once_witness :
  let r := Mon.run Cases.phone (Completed 0 Cases.proc_net_dev) (0 # 1)%Q
                   Cases.four_turns in
  Obs.probe_results Cases.phone (fst (fst r)) = [true; false; true; false; false]
  /\ Obs.errors (fst (fst r)) = [ErrorSignal Mon.ping_lost]
  /\ snd r = Broke.
Proof.
  intros r.
  destruct (probe_retried_once Cases.phone (Completed 0 Cases.proc_net_dev)
              (0 # 1)%Q Cases.four_turns eq_refl) as [He [Hh _]].
  split; [vm_compute; reflexivity|].
  split; [exact He | exact Hh].
Defined.

(* ------------------------------------------------------------------ *)
(** ** The network monitor: throughput                                  *)
(* ------------------------------------------------------------------ *)

Section Throughput.

Context {F : Type} `{Float F}.
Variable adb : AdbWorker.

Lemma run_cmd_no_speed (args : list string) (sys : os) :
  Obs.speeds (fst (Adb.run_cmd adb args sys)) = [].
Proof.
  unfold Adb.run_cmd. destruct (negb _); [reflexivity|].
  destruct (sys _); reflexivity.
Qed.

Lemma probe_no_speed (c : completed) : Obs.speeds (fst (Mon.probe adb c)) = [].
Proof.
  unfold Mon.probe. pose proof (run_cmd_no_speed Mon.ping_cmd (fun _ => c)) as Hs.
  destruct (Adb.run_cmd adb Mon.ping_cmd _). exact Hs.
Qed.

Lemma stats_no_speed (sys : os) :
  Obs.speeds (fst (Mon.get_traffic_stats adb sys)) = [].
Proof.
  unfold Mon.get_traffic_stats.
  pose proof (run_cmd_no_speed ["shell"; "cat"; "/proc/net/dev"] sys) as Hs.
  destruct (Adb.run_cmd adb _ sys) as [e [out|]]; [|exact Hs].
  destruct (Py.truthy out); exact Hs.
Qed.

(** What the traffic step of a turn emits and stores. *)
Lemma sample_cases (self : NetworkMonitor F) (t : tick F) :
  let stats := snd (Mon.get_traffic_stats adb (fun _ => netdev t)) in
  let r := Mon.sample adb self t in
  match Mon.rates self (fst stats) (snd stats) (now t) with
  | Some (rx_speed, tx_speed) =>
      Obs.speeds (fst r) = [SpeedSignal (Mon.speed_text rx_speed tx_speed)]
      /\ snd r = mkMon (fst stats) (snd stats) (now t)
  | None => Obs.speeds (fst r) = [] /\ snd r = self
  end.
Proof.
  cbn zeta. unfold Mon.sample.
  pose proof (stats_no_speed (fun _ => netdev t)) as Hs.
  destruct (Mon.get_traffic_stats adb _) as [e [rx tx]]. simpl in Hs |- *.
  destruct (Mon.rates self rx tx (now t)) as [[r1 r2]|]; simpl;
    unfold Obs.speeds in *; rewrite filter_app, Hs; auto.
Qed.

(** A turn that goes on to the next one emits the speed signals of its
    traffic step and ends in the state that step leaves. *)
Lemma turn_is_sample (self : NetworkMonitor F) (t : tick F) :
  snd (Mon.loop_body adb self t) = true ->
  Obs.speeds (fst (fst (Mon.loop_body adb self t)))
  = Obs.speeds (fst (Mon.sample adb self t))
  /\ snd (fst (Mon.loop_body adb self t)) = snd (Mon.sample adb self t).
Proof.
  unfold Mon.loop_body.
  pose proof (probe_no_speed (first_probe t)) as H1.
  pose proof (probe_no_speed (retry_probe t)) as H2.
  destruct (Mon.probe adb (first_probe t)) as [e1 [|]];
    destruct (Mon.probe adb (retry_probe t)) as [e2 [|]];
    destruct (Mon.sample adb self t) as [e3 self']; simpl in *;
    intros Hc; try discriminate; unfold Obs.speeds in *;
    rewrite ?filter_app, ?H1, ?H2; simpl; rewrite ?filter_app, ?H2; auto.
Qed.

End Throughput.

(** C2: in a turn of the monitoring loop that gets past the probes, when
    less than one second has passed since the stored time stamp, no speed
    signal is emitted and the stored baseline and time stamp stay as they
    are; otherwise exactly one speed signal is emitted, made from the
    current counters minus the baseline counters divided by the elapsed
    time, and the baseline and time stamp become the current ones. *)
Theorem throughput_needs_a_second
  {F : Type} `{Float F} (adb : AdbWorker) (self : NetworkMonitor F) (t : tick F) :
  snd (Mon.loop_body adb self t) = true ->
  let current := snd (Mon.get_traffic_stats adb (fun _ => netdev t)) in
  let duration := fsub (now t) (last_time self) in
  let r := fst (Mon.loop_body adb self t) in
  (ge_one duration = false -> Obs.speeds (fst r) = [] /\ snd r = self)
  /\ (ge_one duration = true ->
      Obs.speeds (fst r)
      = [SpeedSignal
           (Mon.speed_text (int_div (fst current - last_rx self) duration)
                           (int_div (snd current - last_tx self) duration))]
      /\ snd r = mkMon (fst current) (snd current) (now t)).
Proof.
  intros Hc. cbn zeta.
  destruct (turn_is_sample adb self t Hc) as [-> ->].
  pose proof (sample_cases adb self t) as Hs. cbn zeta in Hs.
  unfold Mon.rates in Hs.
  split; intros Hd; rewrite Hd in Hs; exact Hs.
Qed.

Lemma throughput_needs_a_second_witness :
  let early := Cases.turn Cases.ping_good Cases.ping_good Cases.proc_net_dev (1 # 2) in
  let later := Cases.turn Cases.ping_bad Cases.ping_good Cases.proc_net_dev (2 # 1) in
  let self : NetworkMonitor Q := mkMon 1000 600 (0 # 1) in
  (Obs.speeds (fst (fst (Mon.loop_body Cases.phone self early))) = []
   /\ snd (fst (Mon.loop_body Cases.phone self early)) = self)
  /\ Obs.speeds (fst (fst (Mon.loop_body Cases.phone self later)))
     = [SpeedSignal "⬇️ 58.6 KB/s   ⬆️ 16.6 KB/s"].
Proof.
  intros early later self.
  assert (He : snd (Mon.loop_body Cases.phone self early) = true)
    by (vm_compute; reflexivity).
  assert (Hl : snd (Mon.loop_body Cases.phone self later) = true)
    by (vm_compute; reflexivity).
  split.
  - apply (throughput_needs_a_second Cases.phone self early He).
    vm_compute. reflexivity.
  - destruct (throughput_needs_a_second Cases.phone self later Hl) as [_ Hge].
    destruct Hge as [Hs _]; [vm_compute; reflexivity|].
    rewrite Hs. vm_compute. reflexivity.
Defined.

(** A rate is negative when the counter went down: exact division of a
    negative difference by an interval of at least one second. *)
Lemma negative_rate (n : Z) (d : Q) :
  Qle_bool 1 d = true -> n < 0 -> (Qdiv (inject_Z n) d < 0)%Q.
Proof.
  intros Hd Hn. apply Qle_bool_iff in Hd.
  destruct d as [dn dd]. unfold Qle in Hd. simpl in Hd.
  destruct dn as [|p|p]; try lia.
  unfold Qdiv, Qinv, Qmult, Qlt, inject_Z. simpl. lia.
Qed.

(** C3, as the specification states it, fails: after a reboot of the
    device the counters read less than the baseline, and the turn emits
    negative rates; nothing is reset to zero. *)
Lemma counter_reset_emits_negative_rate :
  let self : NetworkMonitor Q := mkMon 121000 34600 (0 # 1) in
  let t := Cases.turn Cases.ping_good Cases.ping_good Cases.proc_net_dev_reset (2 # 1) in
  snd (Mon.get_traffic_stats Cases.phone (fun _ => netdev t)) = (2000, 1000)
  /\ Obs.speeds (fst (fst (Mon.loop_body Cases.phone self t)))
     = [SpeedSignal "⬇️ -59500 B/s   ⬆️ -16800 B/s"]
  /\ Obs.speeds (fst (fst (Mon.loop_body Cases.phone self t)))
     <> [SpeedSignal "⬇️ 0 B/s   ⬆️ 0 B/s"].
Proof.
  intros self t.
  assert (Hs : Obs.speeds (fst (fst (Mon.loop_body Cases.phone self t)))
               = [SpeedSignal "⬇️ -59500 B/s   ⬆️ -16800 B/s"])
    by (vm_compute; reflexivity).
  split; [vm_compute; reflexivity|]. split; [exact Hs|].
  rewrite Hs. discriminate.
Qed.

(** C3, amended: when at least one second has passed, the rates are made
    from the signed differences between the current counters and the
    baseline; a counter that reads less than the baseline gives a negative
    rate (exact arithmetic), the signal is emitted all the same, and the
    current counters become the baseline of the next sample. *)
Theorem counter_reset_keeps_signed_delta
  (adb : AdbWorker) (self : NetworkMonitor Q) (t : tick Q) :
  let current := snd (Mon.get_traffic_stats adb (fun _ => netdev t)) in
  let duration := (now t - last_time self)%Q in
  Qle_bool 1 duration = true ->
  let rx_speed := Qdiv (inject_Z (fst current - last_rx self)) duration in
  let tx_speed := Qdiv (inject_Z (snd current - last_tx self)) duration in
  Mon.rates self (fst current) (snd current) (now t) = Some (rx_speed, tx_speed)
  /\ (fst current < last_rx self -> (rx_speed < 0)%Q)
  /\ (snd current < last_tx self -> (tx_speed < 0)%Q)
  /\ Obs.speeds (fst (Mon.sample adb self t))
     = [SpeedSignal (Mon.speed_text rx_speed tx_speed)]
  /\ snd (Mon.sample adb self t) = mkMon (fst current) (snd current) (now t).
Proof.
  intros current duration Hd rx_speed tx_speed.
  assert (Hr : Mon.rates self (fst current) (snd current) (now t)
               = Some (rx_speed, tx_speed)).
  { unfold Mon.rates. simpl. fold duration. rewrite Hd. reflexivity. }
  pose proof (sample_cases adb self t) as Hs. cbn zeta in Hs.
  fold current in Hs. rewrite Hr in Hs.
  split; [exact Hr|].
  split; [intros Hlt; apply negative_rate; [exact Hd | lia]|].
  split; [intros Hlt; apply negative_rate; [exact Hd | lia]|].
  exact Hs.
Qed.

Lemma counter_reset_keeps_signed_delta_witness :
  let self : NetworkMonitor Q := mkMon 121000 34600 (0 # 1) in
  let t := Cases.turn Cases.ping_good Cases.ping_good Cases.proc_net_dev_reset (2 # 1) in
  Mon.rates self 2000 1000 (2 # 1) = Some ((-119000 # 2)%Q, (-33600 # 2)%Q)
  /\ snd (Mon.sample Cases.phone self t) = mkMon 2000 1000 (2 # 1)%Q.
Proof.
  intros self t.
  assert (Hd : Qle_bool 1 (now t - last_time self)%Q = true)
    by (vm_compute; reflexivity).
  destruct (counter_reset_keeps_signed_delta Cases.phone self t Hd)
    as [Hr [_ [_ [_ Hb]]]].
  split; [exact Hr | exact Hb].
Defined.

(* ------------------------------------------------------------------ *)
(** ** The network monitor: reading the counters                        *)
(* ------------------------------------------------------------------ *)

Section Counters.

Lemma contains_colon_cons (c : ascii) (rest : string) :
  Py.contains ":" (String c rest) = Ascii.eqb c ":"%char || Py.contains ":" rest.
Proof.
  cbn [Py.contains prefix].
  destruct (ascii_dec ":" c) as [<-|Hne].
  - destruct rest; reflexivity.
  - destruct (Ascii.eqb_spec c ":"%char) as [->|_]; [congruence | reflexivity].
Qed.

Lemma cut_none (line : string) :
  Obs.cut line = None ->
  Py.contains ":" line = false /\ Py.split_on ":" line = [line].
Proof.
  induction line as [|c line IH]; [auto|].
  rewrite contains_colon_cons. cbn [Obs.cut Py.split_on].
  destruct (Ascii.eqb c ":"%char); [discriminate|].
  destruct (Obs.cut line) as [[name fields]|]; [discriminate|].
  intros _. destruct (IH eq_refl) as [Hc Hs]. rewrite Hc, Hs. auto.
Qed.

Lemma cut_some (line name fields : string) :
  Obs.cut line = Some (name, fields) ->
  Py.contains ":" line = true
  /\ Py.split_on ":" line
     = match Py.split_on ":" fields with
       | [] => [name]
       | more => name :: more
       end.
Proof.
  revert name. induction line as [|c line IH]; intros name; [discriminate|].
  rewrite contains_colon_cons. cbn [Obs.cut Py.split_on].
  destruct (Ascii.eqb c ":"%char).
  - intros E. injection E as <- <-. split; [reflexivity|].
    destruct (Py.split_on ":" line); reflexivity.
  - destruct (Obs.cut line) as [[name' fields']|]; [|discriminate].
    intros E. injection E as <- <-.
    destruct (IH name' eq_refl) as [Hc Hs]. rewrite Hc, Hs.
    split; [reflexivity|].
    destruct (Py.split_on ":" fields'); reflexivity.
Qed.

Lemma cut_app (before after : string) :
  Py.contains ":" before = false ->
  Obs.cut (before ++ ":" ++ after) = Some (before, after).
Proof.
  induction before as [|c before IH]; [reflexivity|].
  rewrite contains_colon_cons. intros Hc.
  apply orb_false_iff in Hc. destruct Hc as [Hp Hc].
  change (String c before ++ ":" ++ after) with (String c (before ++ ":" ++ after)).
  cbn [Obs.cut]. rewrite Hp, (IH Hc). reflexivity.
Qed.

Lemma nth_error_nth (l : list string) (n : nat) :
  nth_error l n = if (n <? List.length l)%nat then Some (nth n l EmptyString) else None.
Proof.
  revert n; induction l as [|x l IH]; intros [|n]; simpl; try reflexivity.
  rewrite IH. reflexivity.
Qed.

(** On a line with at most one colon the loop body adds what the line
    stands for. *)
Lemma parse_line_adds (totals : Z * Z) (line : string) :
  Obs.plain line = true ->
  Mon.parse_line totals line
  = (fst totals + fst (Obs.counters_of_line line),
     snd totals + snd (Obs.counters_of_line line)).
Proof.
  destruct totals as [rx tx]. unfold Obs.plain, Mon.parse_line, Obs.counters_of_line.
  destruct (Obs.cut line) as [[name fields]|] eqn:E.
  - intros Hp. apply negb_true_iff in Hp.
    destruct (cut_some line name fields E) as [Hc Hs]. rewrite Hc, Hs.
    assert (Hf : Py.split_on ":" fields = [fields]).
    { destruct (Obs.cut fields) as [[n f]|] eqn:E2.
      - destruct (cut_some fields n f E2) as [Hc2 _]. congruence.
      - apply (cut_none fields E2). }
    rewrite Hf. cbn [nth].
    destruct (String.eqb (Py.strip name) "lo"); [cbn; f_equal; lia|].
    rewrite !nth_error_nth.
    destruct (Py.split fields) as [|f0 data] eqn:Ed; [cbn; f_equal; lia|].
    cbn [nth List.length Nat.ltb Nat.leb fst snd].
    match goal with |- (if ?b then _ else _) = _ => destruct b end;
      [|cbn; f_equal; lia].
    destruct (Py.int f0) as [a|]; [|cbn; f_equal; lia].
    destruct (Py.int _) as [b|]; cbn; f_equal; lia.
  - intros _. destruct (cut_none line E) as [Hc _]. rewrite Hc. cbn. f_equal; lia.
Qed.
Lemma parse_adds (lines : list string) :
  forall totals,
    Forall (fun l => Obs.plain l = true) lines ->
    fold_left Mon.parse_line lines totals
    = (fst totals + fst (Obs.sum_counters (map Obs.counters_of_line lines)),
       snd totals + snd (Obs.sum_counters (map Obs.counters_of_line lines))).
Proof.
  induction lines as [|l lines IH]; intros [rx tx] Hall; simpl.
  - f_equal; lia.
  - inversion Hall as [|? ? Hl Hrest]; subst.
    rewrite (parse_line_adds (rx, tx) l Hl), (IH _ Hrest). simpl. f_equal; lia.
Qed.

Lemma sum_counters_app (a b : list string) :
  Obs.sum_counters (map Obs.counters_of_line (a ++ b)%list)
  = (fst (Obs.sum_counters (map Obs.counters_of_line a))
     + fst (Obs.sum_counters (map Obs.counters_of_line b)),
     snd (Obs.sum_counters (map Obs.counters_of_line a))
     + snd (Obs.sum_counters (map Obs.counters_of_line b))).
Proof.
  unfold Obs.sum_counters. induction a as [|l a IH]; simpl.
  - reflexivity.
  - injection IH as -> ->. f_equal; lia.
Qed.

Lemma sum_counters_skips (bad : list string) :
  Forall (fun l => Obs.counters_of_line l = (0, 0)) bad ->
  Obs.sum_counters (map Obs.counters_of_line bad) = (0, 0).
Proof.
  unfold Obs.sum_counters. induction bad as [|l bad IH]; intros Hbad; simpl.
  - reflexivity.
  - inversion Hbad as [|? ? Hl Hrest]; subst.
    rewrite Hl. specialize (IH Hrest). injection IH as -> ->. reflexivity.
Qed.

End Counters.

(** C9: when the read of the traffic file ran and every line of it has at
    most one colon, [get_traffic_stats] returns, summed over all lines, the
    counters each line stands for: nothing for a line without a colon, for
    the loopback line, for a line with fewer than nine fields after the
    colon and for a line whose field 0 or field 8 is not a number, and
    otherwise field 0 as received and field 8 as transmitted bytes; a line
    that counts for nothing does not stop the lines after it from
    counting. *)
Theorem traffic_stats_sum
  (adb : AdbWorker) (sys : os) (rc : Z) (out : string) :
  Py.truthy (adb_path adb) = true ->
  sys (Adb.cmdline adb ["shell"; "cat"; "/proc/net/dev"]) = Completed rc out ->
  Forall (fun l => Obs.plain l = true) (Py.split_on Py.LF (Py.strip out)) ->
  snd (Mon.get_traffic_stats adb sys)
  = Obs.sum_counters
      (map Obs.counters_of_line (Py.split_on Py.LF (Py.strip out)))
  /\ (forall before bad after : list string,
      Py.split_on Py.LF (Py.strip out) = (before ++ bad ++ after)%list ->
      Forall (fun l => Obs.counters_of_line l = (0, 0)) bad ->
      snd (Mon.get_traffic_stats adb sys)
      = Obs.sum_counters (map Obs.counters_of_line (before ++ after)%list)).
Proof.
  intros Hp Hrun Hall.
  assert (Hsum : snd (Mon.get_traffic_stats adb sys)
                 = Obs.sum_counters
                     (map Obs.counters_of_line (Py.split_on Py.LF (Py.strip out)))).
  { unfold Mon.get_traffic_stats, Adb.run_cmd. rewrite Hp, Hrun. simpl.
    destruct (Py.truthy (Py.strip out)) eqn:Ht; simpl.
    - unfold Mon.parse. now rewrite (parse_adds _ (0, 0) Hall).
    - unfold Py.truthy in Ht. apply negb_false_iff, String.eqb_eq in Ht.
      rewrite Ht. reflexivity. }
  split; [exact Hsum|].
  intros before bad after Hsplit Hbad. rewrite Hsum, Hsplit.
  now rewrite !sum_counters_app, (sum_counters_skips bad Hbad).
Qed.

Lemma traffic_stats_sum_witness :
  snd (Mon.get_traffic_stats Cases.phone (fun _ => Completed 0 Cases.proc_net_dev))
  = (121000, 34600).
Proof.
  assert (Hall : Forall (fun l => Obs.plain l = true)
                        (Py.split_on Py.LF (Py.strip Cases.proc_net_dev)))
    by (vm_compute; repeat constructor).
  destruct (traffic_stats_sum Cases.phone (fun _ => Completed 0 Cases.proc_net_dev)
              0 Cases.proc_net_dev eq_refl eq_refl Hall) as [Hs _].
  rewrite Hs. vm_compute. reflexivity.
Defined.

(* ------------------------------------------------------------------ *)
(** ** Diagnostic capture                                               *)
(* ------------------------------------------------------------------ *)

Section Capture.

Lemma run_cmd_only_spawns (f : effect -> bool) (adb : AdbWorker)
      (args : list string) (sys : os) :
  (forall argv c, f (Spawn argv c) = false) ->
  filter f (fst (Adb.run_cmd adb args sys)) = [].
Proof.
  intros Hf. unfold Adb.run_cmd. destruct (negb _); [reflexivity|].
  destruct (sys _); simpl; now rewrite Hf.
Qed.

Lemma brand_no_capture (adb : AdbWorker) (sys : os) :
  filter Obs.is_capture (fst (Adb.get_brand adb sys)) = [].
Proof. apply run_cmd_only_spawns. reflexivity. Qed.


(** What [on_net_error] does when the capture has not been triggered. *)
Lemma on_net_error_fresh (self : MainWindow) (env : slot_env) (msg : string) :
  has_triggered_bugreport self = false ->
  let brand := snd (Adb.get_brand (bridge env) (slot_os env)) in
  let e1 := fst (Adb.get_brand (bridge env) (slot_os env)) in
  Win.on_net_error self env msg
  = if Win.is_xiaomi brand
    then (([TimerStop; SwipeTimerStop; MonitorStop] ++ e1
           ++ [LogDialogShow; BugReportStart msg])%list,
          mkWin (test_duration self) (remaining_time self) false true Win.start_label)
    else (([TimerStop; SwipeTimerStop; MonitorStop] ++ e1
           ++ [Critical Win.abort_title (Win.failure_text msg)])%list,
          mkWin (test_duration self) (remaining_time self) false false Win.start_label).
Proof.
  intros Hf. cbn zeta. unfold Win.on_net_error, Win.stop_test_internal. simpl.
  rewrite Hf. simpl.
  destruct (Adb.get_brand (bridge env) (slot_os env)) as [e1 brand]. simpl.
  destruct (Win.is_xiaomi brand); reflexivity.
Qed.

Lemma on_net_error_again (self : MainWindow) (env : slot_env) (msg : string) :
  has_triggered_bugreport self = true ->
  Win.on_net_error self env msg
  = ([TimerStop; SwipeTimerStop; MonitorStop;
      Critical Win.abort_title (Win.failure_text msg)],
     mkWin (test_duration self) (remaining_time self) false true Win.start_label).
Proof.
  intros Hf. unfold Win.on_net_error, Win.stop_test_internal. simpl.
  rewrite Hf. reflexivity.
Qed.

(** An event that does not start afresh launches a capture exactly when
    it raises the flag, and never lowers it. *)
Lemma react_flag (self : MainWindow) (ev : Win.event) :
  Win.fresh_start self ev = false ->
  (Obs.captures (fst (Win.react self ev)) + Obs.flag_count self
   = Obs.flag_count (snd (Win.react self ev)))%nat.
Proof.
  unfold Obs.flag_count. destruct ev as [env|env| | | |env msg|path msg]; simpl; intros Hs.
  - unfold Win.on_start_clicked. apply negb_false_iff in Hs. rewrite Hs. reflexivity.
  - discriminate.
  - reflexivity.
  - unfold Win.reset_start_button. destruct (negb _); reflexivity.
  - unfold Win.on_timer_tick. simpl. destruct (_ <=? 0); reflexivity.
  - destruct (has_triggered_bugreport self) eqn:Hf.
    + rewrite (on_net_error_again self env msg Hf). reflexivity.
    + rewrite (on_net_error_fresh self env msg Hf).
      pose proof (brand_no_capture (bridge env) (slot_os env)) as Hb.
      destruct (Win.is_xiaomi _); unfold Obs.captures; simpl;
        rewrite filter_app, Hb; reflexivity.
  - reflexivity.
Qed.

Lemma reacts_flag (evs : list Win.event) :
  forall self,
    Obs.same_session self evs = true ->
    (Obs.captures (fst (Win.reacts self evs)) + Obs.flag_count self
     = Obs.flag_count (snd (Win.reacts self evs)))%nat.
Proof.
  induction evs as [|ev later IH]; intros self Hs; simpl in *.
  - reflexivity.
  - apply andb_true_iff in Hs. destruct Hs as [Hev Hlater].
    apply negb_true_iff in Hev.
    pose proof (react_flag self ev Hev) as H1.
    destruct (Win.react self ev) as [e1 self1]. simpl in *.
    specialize (IH self1 Hlater).
    destruct (Win.reacts self1 later) as [e2 self2]. simpl in *.
    unfold Obs.captures in *. rewrite filter_app, length_app. lia.
Qed.

Lemma fresh_start_clears (self : MainWindow) (ev : Win.event) :
  Win.fresh_start self ev = true ->
  has_triggered_bugreport (snd (Win.react self ev)) = false.
Proof.
  assert (Hn : forall w env, has_triggered_bugreport (snd (Win.start_new_test w env)) = false).
  { intros w env. unfold Win.start_new_test.
    destruct (negb (Py.truthy_opt _)); [reflexivity|].
    destruct (_ <=? 0); [reflexivity|].
    destruct (Adb.get_device_info _ _) as [e1 info].
    destruct (Adb.get_network_type _ _) as [e2 net].
    destruct (Py.contains _ _); [destruct (answer_yes env)|]; reflexivity. }
  destruct ev; simpl; try discriminate; intros Hs.
  - unfold Win.on_start_clicked. apply negb_true_iff in Hs. rewrite Hs. apply Hn.
  - apply Hn.
Qed.

End Capture.

(** C5: over any sequence of events of the window in which none runs
    [start_new_test], at most one capture thread is launched, and none when
    the flag is already set; the flag, once set, stays set through every
    such event, resume included; a failure that meets the brand policy
    while the flag is clear sets it; an event that runs [start_new_test]
    (start or restart) clears it. *)
Theorem capture_once_per_session (self : MainWindow) (evs : list Win.event) :
  Obs.same_session self evs = true ->
  let r := Win.reacts self evs in
  (Obs.captures (fst r) <= 1)%nat
  /\ (has_triggered_bugreport self = true ->
      Obs.captures (fst r) = 0%nat /\ has_triggered_bugreport (snd r) = true)
  /\ (Obs.captures (fst r) = 1%nat -> has_triggered_bugreport (snd r) = true)
  /\ has_triggered_bugreport (snd (Win.resume_test self))
     = has_triggered_bugreport self
  /\ (forall env msg,
      has_triggered_bugreport self = false ->
      Win.is_xiaomi (snd (Adb.get_brand (bridge env) (slot_os env))) = true ->
      has_triggered_bugreport (snd (Win.on_net_error self env msg)) = true
      /\ Obs.captures (fst (Win.on_net_error self env msg)) = 1%nat)
  /\ (forall ev, Win.fresh_start self ev = true ->
      has_triggered_bugreport (snd (Win.react self ev)) = false).
Proof.
  intros Hs r. pose proof (reacts_flag evs self Hs) as Hf. fold r in Hf.
  unfold Obs.flag_count in Hf.
  split; [destruct (has_triggered_bugreport self), (has_triggered_bugreport (snd r)); lia|].
  split.
  { intros Ht. rewrite Ht in Hf.
    destruct (has_triggered_bugreport (snd r)); [split; [lia | reflexivity] | lia]. }
  split.
  { intros H1. rewrite H1 in Hf.
    destruct (has_triggered_bugreport (snd r)); [reflexivity|].
    destruct (has_triggered_bugreport self); lia. }
  split; [reflexivity|]. split.
  - intros env msg Hc Hx. rewrite (on_net_error_fresh self env msg Hc). cbn zeta.
    rewrite Hx. split; [reflexivity|].
    unfold Obs.captures. simpl.
    rewrite filter_app, (brand_no_capture (bridge env) (slot_os env)). reflexivity.
  - apply fresh_start_clears.
Qed.

Lemma capture_once_per_session_witness :
  let evs := [Win.NetError (Cases.slot "Redmi") Mon.ping_lost;
              Win.StopClicked;
              Win.StartClicked (Cases.slot "Redmi");
              Win.NetError (Cases.slot "Redmi") Mon.ping_lost] in
  let w := mkWin 30 12 true false Win.resume_label in
  Obs.same_session w evs = true
  /\ (Obs.captures (fst (Win.reacts w evs)) <= 1)%nat.
Proof.
  intros evs w.
  assert (Hs : Obs.same_session w evs = true) by (vm_compute; reflexivity).
  split; [exact Hs|].
  apply (capture_once_per_session w evs Hs).
Defined.



(** C7: the completion signal carries the save path on success and the
    text of the exception otherwise.  On success the final message holds
    the reason of the network failure and the path.  When the capture
    fails, here because the directory cannot be created, the final message
    holds the text of the exception in both places and the reason of the
    network failure is gone. *)
Theorem capture_error_replaces_reason :
  (forall path msg,
      Py.truthy path = true ->
      Py.contains msg (Win.final_message path msg) = true
      /\ Py.contains path (Win.final_message path msg) = true)
  /\ (let emitted :=
        Bug.run Locate.posix_join Cases.phone Mon.ping_lost Cases.capture_fine in
      let shown := Obs.criticals (fst (Win.deliver Win.init emitted)) in
      filter (fun e => match e with FinishedSignal _ _ => true | _ => false end) emitted
      = [FinishedSignal "/opt/nettest/2024-05-01-M2101K6G-NetworkError" Mon.ping_lost]
      /\ map (Py.contains Mon.ping_lost) shown = [true])
  /\ (let emitted :=
        Bug.run Locate.posix_join Cases.phone Mon.ping_lost Cases.capture_denied in
      let shown := Obs.criticals (fst (Win.deliver Win.init emitted)) in
      filter (fun e => match e with FinishedSignal _ _ => true | _ => false end) emitted
      = [FinishedSignal EmptyString
           "[Errno 13] Permission denied: '/opt/nettest/2024-05-01-M2101K6G-NetworkError'"]
      /\ map (Py.contains Mon.ping_lost) shown = [false]
      /\ map (Py.contains "Permission denied") shown = [true]).
Proof.
  split; [|split].
  - intros path msg Hp. unfold Win.final_message. rewrite Hp. split.
    + apply contains_app_r, contains_app_r, contains_app_r, contains_refl_app.
    + do 8 apply contains_app_r. apply contains_iff.
      exists EmptyString, EmptyString. simpl.
      clear. induction path; simpl; congruence.
  - vm_compute. auto.
  - vm_compute. auto.
Qed.

(* ------------------------------------------------------------------ *)
(** ** Checks of the primitives on small inputs                         *)
(* ------------------------------------------------------------------ *)

Example contains_ex : Py.contains "redmi" (Py.lower "Redmi Note 12") = true.
Proof. reflexivity. Qed.

Example split_ex : Py.split "  12 7   x " = ["12"; "7"; "x"].
Proof. reflexivity. Qed.

Example split_on_ex : Py.split_on ":" " wlan0: 1 2" = [" wlan0"; " 1 2"].
Proof. reflexivity. Qed.

Example strip_ex : Py.strip "  a b  " = "a b".
Proof. reflexivity. Qed.

Example int_ex :
  (Py.int "1_000", Py.int "-42", Py.int "1__0", Py.int "12a", Py.int "")
  = (Some 1000, Some (-42), None, None, None).
Proof. reflexivity. Qed.

Example format_speed_ex :
  (Mon.format_speed (500 # 1)%Q, Mon.format_speed (2048 # 1)%Q,
   Mon.format_speed (5 * 1024 * 1024 # 1)%Q, Mon.format_speed (5 # 2)%Q,
   Mon.format_speed (-(1 # 3))%Q)
  = ("500 B/s", "2.0 KB/s", "5.00 MB/s", "2 B/s", "-0 B/s").
Proof. vm_compute. reflexivity. Qed.

Example enumerate_ex :
  Adb.enumerate ("List of devices attached" ++ Cases.nl
                 ++ "8a3f01" ++ Cases.tab ++ "device" ++ Cases.nl
                 ++ "emulator-5554" ++ Cases.tab ++ "offline" ++ Cases.nl
                 ++ "0123456789ABCDEF" ++ Cases.tab ++ "device" ++ Cases.nl)
  = ["8a3f01"; "0123456789ABCDEF"].
Proof. vm_compute. reflexivity. Qed.

Example network_type_ex :
  snd (Adb.get_network_type Cases.phone
         (fun argv =>
            if Obs.argv_eqb argv (Adb.cmdline Cases.phone Mon.ping_cmd)
            then Cases.ping_good
            else Completed 0 "3: wlan0    inet 192.168.1.5/24 brd 192.168.1.255"))
  = "Wi-Fi (互联网正常)".
Proof. vm_compute. reflexivity. Qed.

(** On a line with a second colon the fields are those between the first
    two colons. *)
Example two_colons_ex :
  Mon.parse_line (0, 0) "wlan0: 1 2 3 4 5 6 7 8 9: 10 11"
  = (1, 9)
  /\ Obs.plain "wlan0: 1 2 3 4 5 6 7 8 9: 10 11" = false.
Proof. split; vm_compute; reflexivity. Qed.

(* ------------------------------------------------------------------ *)
(** ** Locating the tool                                                *)
(* ------------------------------------------------------------------ *)

Lemma append_truthy_r (a b : string) :
  Py.truthy b = true -> Py.truthy (a ++ b) = true.
Proof.
  rewrite !truthy_true. intros Hb Hab. apply Hb.
  destruct a; simpl in Hab; [exact Hab | discriminate].
Qed.

Lemma posix_join_truthy (a b : string) :
  Py.truthy b = true -> Py.truthy (Locate.posix_join a b) = true.
Proof.
  intros Hb. unfold Locate.posix_join.
  destruct (prefix "/" b); [exact Hb|].
  destruct (String.eqb a EmptyString); [exact Hb|].
  destruct (String.eqb _ "/"); repeat apply append_truthy_r; exact Hb.
Qed.

(** [find_adb] prefers the tool beside the program, then the one under
    [platform-tools], then the bare name left to the search path; with a
    join that never returns the empty path for a non-empty last component,
    the path it returns is never empty, so a worker built from it never
    takes the early return of [run_cmd] and spawns one process per call. *)
Theorem find_adb_order (path_join : string -> string -> string) (h : host) :
  (forall a b, Py.truthy b = true -> Py.truthy (path_join a b) = true) ->
  let base := if frozen h then meipass h else cwd h in
  let name := Locate.adb_name h in
  let beside := path_join base name in
  let tools := path_join (path_join base "platform-tools") name in
  let found := Locate.find_adb path_join h in
  (path_exists h beside = true -> found = beside)
  /\ (path_exists h beside = false -> path_exists h tools = true -> found = tools)
  /\ (path_exists h beside = false -> path_exists h tools = false -> found = name)
  /\ Py.truthy found = true
  /\ (forall args sys,
      fst (Adb.run_cmd (Locate.init path_join h) args sys)
      = [Spawn (found :: args) (sys (found :: args))]).
Proof.
  intros Hjoin base name beside tools found.
  assert (Hname : Py.truthy name = true).
  { unfold name, Locate.adb_name. destruct (String.eqb _ _); reflexivity. }
  assert (Hfound : Py.truthy found = true).
  { unfold found, Locate.find_adb. fold base. fold name. fold beside. fold tools.
    destruct (path_exists h beside); [apply Hjoin, Hname|].
    destruct (path_exists h tools); [apply Hjoin, Hname | exact Hname]. }
  unfold found at 1 2 3, Locate.find_adb. fold base. fold name. fold beside. fold tools.
  repeat split.
  - intros ->. reflexivity.
  - intros -> ->. reflexivity.
  - intros -> ->. reflexivity.
  - exact Hfound.
  - intros args sys. rewrite run_cmd_trace by exact Hfound. reflexivity.
Qed.

Lemma find_adb_order_witness :
  Locate.find_adb Locate.posix_join
    (More.a_host ["/opt/nettest/platform-tools/adb"; "/usr/bin/adb"])
  = "/opt/nettest/platform-tools/adb"
  /\ Locate.find_adb Locate.posix_join (More.a_host ["/usr/bin/adb"]) = "adb".
Proof.
  destruct (find_adb_order Locate.posix_join
              (More.a_host ["/opt/nettest/platform-tools/adb"; "/usr/bin/adb"])
              posix_join_truthy) as [_ [Htools _]].
  destruct (find_adb_order Locate.posix_join (More.a_host ["/usr/bin/adb"])
              posix_join_truthy) as [_ [_ [Hname _]]].
  split.
  - apply Htools; vm_compute; reflexivity.
  - apply Hname; vm_compute; reflexivity.
Defined.

(* ------------------------------------------------------------------ *)
(** ** The device handle                                                *)
(* ------------------------------------------------------------------ *)

Section Handle.

Lemma no_space_app (a : string) (c : ascii) :
  More.no_space a = true -> Py.isspace c = false ->
  More.no_space (a ++ String c EmptyString) = true.
Proof.
  intros Ha Hc. induction a as [|x a IH]; simpl in *.
  - now rewrite Hc.
  - apply andb_true_iff in Ha. destruct Ha as [Hx Ha]. now rewrite Hx, IH.
Qed.

Lemma app_char_truthy (a : string) (c : ascii) :
  Py.truthy (a ++ String c EmptyString) = true.
Proof. apply append_truthy_r. reflexivity. Qed.

(** Every field of [s.split()] is a non-empty word. *)
Lemma split_ws_words (s : string) :
  forall cur,
    More.no_space cur = true ->
    Forall (fun w => Py.truthy w = true /\ More.no_space w = true)
           (Py.split_ws_from cur s).
Proof.
  induction s as [|c s IH]; intros cur Hcur; simpl.
  - destruct (String.eqb cur EmptyString) eqn:E; constructor; [|constructor].
    split; [|exact Hcur]. unfold Py.truthy. now rewrite E.
  - destruct (Py.isspace c) eqn:Hc.
    + destruct (String.eqb cur EmptyString) eqn:E.
      * apply IH. reflexivity.
      * constructor; [|apply IH; reflexivity].
        split; [|exact Hcur]. unfold Py.truthy. now rewrite E.
    + apply IH. now apply no_space_app.
Qed.

Lemma split_ws_started (s cur : string) :
  Py.truthy cur = true -> Py.split_ws_from cur s <> [].
Proof.
  revert cur; induction s as [|c s IH]; intros cur Hcur; simpl.
  - unfold Py.truthy in Hcur. apply negb_true_iff in Hcur. rewrite Hcur. discriminate.
  - unfold Py.truthy in Hcur. apply negb_true_iff in Hcur.
    destruct (Py.isspace c).
    + rewrite Hcur. discriminate.
    + apply IH, app_char_truthy.
Qed.

Lemma split_of_nonblank (s : string) :
  Py.truthy (Py.lstrip s) = true -> Py.split s <> [].
Proof.
  unfold Py.split. generalize EmptyString as cur.
  induction s as [|c s IH]; intros cur; simpl.
  - discriminate.
  - destruct (Py.isspace c).
    + intros Hs. destruct (String.eqb cur EmptyString); [now apply IH | discriminate].
    + intros _. apply split_ws_started, app_char_truthy.
Qed.

Lemma rstrip_truthy (s : string) :
  Py.truthy (Py.rstrip s) = true -> Py.truthy s = true.
Proof. destruct s; [discriminate | reflexivity]. Qed.

(** The ids read from [adb devices] are non-empty words. *)
Lemma enumerate_words (out : string) :
  Forall (fun d => Py.truthy d = true /\ More.no_space d = true) (Adb.enumerate out).
Proof.
  unfold Adb.enumerate. apply Forall_forall. intros d Hin.
  apply in_map_iff in Hin. destruct Hin as [line [Hd Hline]].
  apply filter_In in Hline. destruct Hline as [_ Hf].
  apply andb_true_iff in Hf. destruct Hf as [Hs _].
  unfold Py.strip in Hs. apply rstrip_truthy in Hs.
  pose proof (split_of_nonblank line Hs) as Hne.
  pose proof (split_ws_words line EmptyString eq_refl) as Hw.
  unfold Adb.first_field in Hd. unfold Py.split in *.
  destruct (Py.split_ws_from EmptyString line) as [|f fs]; [contradiction|].
  subst d. now inversion Hw.
Qed.

Lemma poll_handle_ok (self : AdbWorker) (sys : os) :
  More.handle_ok self = true -> More.handle_ok (snd (Adb.poll self sys)) = true.
Proof.
  intros Hok. unfold Adb.poll. destruct (sys _) as [e|rc out]; [exact Hok|].
  pose proof (enumerate_words out) as Hw.
  destruct (Adb.enumerate out) as [|d ds].
  - destruct (device_id self); [reflexivity | exact Hok].
  - inversion Hw as [|? ? [Ht Hn] _]; subst.
    destruct (negb _); [|exact Hok].
    unfold More.handle_ok. simpl. now rewrite Ht, Hn.
Qed.

End Handle.

(** Whatever the polls answer, the handle kept by the presence monitor is
    absent or a non-empty word without spaces; a handle that is there is
    therefore always passed as [-s <id>] by [run_cmd]. *)
Theorem handle_is_a_word (self : AdbWorker) (answers : list os) :
  More.handle_ok self = true ->
  let after := snd (Adb.run self answers) in
  More.handle_ok after = true
  /\ (forall d args,
      device_id after = Some d ->
      Adb.cmdline after args = (adb_path self :: "-s" :: d :: args)%list).
Proof.
  intros Hok after.
  assert (Hafter : More.handle_ok after = true).
  { subst after. revert self Hok.
    induction answers as [|sys later IH]; intros self Hok; simpl; [exact Hok|].
    pose proof (poll_handle_ok self sys Hok) as H1.
    destruct (Adb.poll self sys) as [e1 self1]. simpl in H1.
    specialize (IH self1 H1).
    destruct (Adb.run self1 later) as [e2 self2]. exact IH. }
  split; [exact Hafter|].
  intros d args Hd. unfold More.handle_ok in Hafter. rewrite Hd in Hafter.
  apply andb_true_iff in Hafter. destruct Hafter as [Ht _].
  rewrite (cmdline_selector after args d Hd) by (now apply truthy_true).
  subst after. now rewrite run_keeps_path.
Qed.

Lemma handle_is_a_word_witness :
  More.handle_ok
    (snd (Adb.run Cases.no_phone
            [Cases.devices_none; Cases.devices_one; Cases.devices_one])) = true.
Proof.
  apply (handle_is_a_word Cases.no_phone
           [Cases.devices_none; Cases.devices_one; Cases.devices_one] eq_refl).
Defined.



(* ------------------------------------------------------------------ *)
(** ** The network classifier                                           *)
(* ------------------------------------------------------------------ *)

(** The classifier answers "no connection" exactly when the address
    listing is missing, empty or names none of wlan, rmnet, ccmni and eth,
    and then whether or not the probe got its reply; otherwise the answer
    ends with the verdict of the probe. *)
Theorem network_type_by_interfaces (self : AdbWorker) (sys : os) :
  let ip_info := snd (Adb.run_cmd self More.ip_cmd sys) in
  let ping_res := snd (Adb.run_cmd self Mon.ping_cmd sys) in
  let answer := snd (Adb.get_network_type self sys) in
  (More.interface_found ip_info = false <-> answer = More.no_connection)
  /\ (More.interface_found ip_info = true ->
      exists kinds,
        answer = kinds ++ (if Adb.in_opt "1 received" ping_res
                           then " (互联网正常)" else " (无互联网访问)")).
Proof.
  cbn zeta. unfold Adb.get_network_type, More.interface_found, More.ip_cmd, Mon.ping_cmd.
  destruct (Adb.run_cmd self ["shell"; "ping"; "-c"; "1"; "-w"; "1"; "223.5.5.5"] sys)
    as [e1 ping_res].
  destruct (Adb.run_cmd self ["shell"; "dumpsys"; "wifi"] sys) as [e2 wifi_dump].
  destruct (Adb.run_cmd self ["shell"; "ip"; "-o"; "-4"; "addr"; "show"; "up"] sys)
    as [e3 ip_info].
  simpl snd.
  remember (Adb.in_opt "1 received" ping_res) as has_internet eqn:Hh. clear Hh.
  unfold Adb.in_opt.
  destruct ip_info as [info|]; [|simpl; split; [split; reflexivity | discriminate]].
  destruct (Py.truthy info); [|simpl; split; [split; reflexivity | discriminate]].
  destruct (Py.contains "wlan" info), (Py.contains "rmnet" info),
    (Py.contains "ccmni" info), (Py.contains "eth" info);
    destruct has_internet; cbn -[String.append];
    (split;
     [split; [try discriminate; try reflexivity
             | try reflexivity; intros Hbad; vm_compute in Hbad; discriminate]
     | try discriminate; intros _; eexists; reflexivity]).
Qed.

(* ------------------------------------------------------------------ *)
(** ** The window: start, countdown, pause                              *)
(* ------------------------------------------------------------------ *)

Section Window.

Lemma run_cmd_spawns (adb : AdbWorker) (args : list string) (sys : os) :
  forallb More.is_spawn (fst (Adb.run_cmd adb args sys)) = true.
Proof.
  unfold Adb.run_cmd. destruct (negb _); [reflexivity|].
  destruct (sys _); reflexivity.
Qed.

Lemma device_info_spawns (adb : AdbWorker) (sys : os) :
  forallb More.is_spawn (fst (Adb.get_device_info adb sys)) = true.
Proof.
  unfold Adb.get_device_info.
  pose proof (run_cmd_spawns adb ["shell"; "getprop"; "ro.product.model"] sys) as H1.
  pose proof (run_cmd_spawns adb ["shell"; "getprop"; "ro.build.version.release"] sys) as H2.
  destruct (Adb.run_cmd adb ["shell"; "getprop"; "ro.product.model"] sys) as [e1 m].
  destruct (Adb.run_cmd adb ["shell"; "getprop"; "ro.build.version.release"] sys) as [e2 v].
  simpl in *. now rewrite forallb_app, H1, H2.
Qed.

Lemma network_type_spawns (adb : AdbWorker) (sys : os) :
  forallb More.is_spawn (fst (Adb.get_network_type adb sys)) = true.
Proof.
  unfold Adb.get_network_type.
  pose proof (run_cmd_spawns adb ["shell"; "ping"; "-c"; "1"; "-w"; "1"; "223.5.5.5"] sys) as H1.
  pose proof (run_cmd_spawns adb ["shell"; "dumpsys"; "wifi"] sys) as H2.
  pose proof (run_cmd_spawns adb ["shell"; "ip"; "-o"; "-4"; "addr"; "show"; "up"] sys) as H3.
  destruct (Adb.run_cmd adb ["shell"; "ping"; "-c"; "1"; "-w"; "1"; "223.5.5.5"] sys) as [e1 p].
  destruct (Adb.run_cmd adb ["shell"; "dumpsys"; "wifi"] sys) as [e2 w].
  destruct (Adb.run_cmd adb ["shell"; "ip"; "-o"; "-4"; "addr"; "show"; "up"] sys) as [e3 i].
  simpl in *.
  assert (Hall : forallb More.is_spawn (e1 ++ e2 ++ e3)%list = true)
    by (now rewrite !forallb_app, H1, H2, H3).
  destruct (match i with Some _ => _ | None => _ end);
    [exact Hall | destruct (Adb.in_opt _ _); exact Hall].
Qed.

Lemma reacts_app (a b : list Win.event) :
  forall self,
    Win.reacts self (a ++ b)%list
    = ((fst (Win.reacts self a) ++ fst (Win.reacts (snd (Win.reacts self a)) b))%list,
       snd (Win.reacts (snd (Win.reacts self a)) b)).
Proof.
  induction a as [|ev a IH]; intros self; simpl.
  - destruct (Win.reacts self b); reflexivity.
  - destruct (Win.react self ev) as [e1 self1]. rewrite (IH self1).
    destruct (Win.reacts self1 a) as [e2 self2]. simpl.
    destruct (Win.reacts self2 b) as [e3 self3]. simpl. now rewrite app_assoc.
Qed.

(** Ticks that leave time on the clock only count down. *)
Lemma ticks_count_down (k : nat) :
  forall self,
    Z.of_nat k < remaining_time self ->
    Win.reacts self (repeat Win.TimerTick k)
    = ([], mkWin (test_duration self) (remaining_time self - Z.of_nat k)
                 (is_testing self) (has_triggered_bugreport self)
                 (btn_start_text self)).
Proof.
  induction k as [|k IH]; intros self Hk.
  - destruct self; simpl. now rewrite Z.sub_0_r.
  - cbn [repeat Win.reacts Win.react]. unfold Win.on_timer_tick. cbn [remaining_time].
    destruct (remaining_time self - 1 <=? 0) eqn:E; [apply Z.leb_le in E; lia|].
    rewrite IH by (cbn [remaining_time]; lia). cbn.
    do 2 f_equal. lia.
Qed.

End Window.

(** [start_new_test] starts the monitor and the two timers exactly when a
    device handle is known and the two spin boxes give a positive number of
    seconds; the only processes run before that are the reads of the
    device and network information.  Refused, it shows one warning and
    runs nothing; the flag is cleared in every case, and a refusal for the
    duration has already overwritten [test_duration]. *)
Theorem start_needs_device_and_time (self : MainWindow) (env : slot_env) :
  let d := spin_min env * 60 + spin_sec env in
  let r := Win.start_new_test self env in
  (Py.truthy_opt (device_id (bridge env)) = false ->
   r = ([Warning "错误" "未连接设备！"], Win.set_flag self false))
  /\ (Py.truthy_opt (device_id (bridge env)) = true -> d <= 0 ->
      r = ([Warning "提示" "请设置有效的执行时间"],
           mkWin d (remaining_time self) (is_testing self) false (btn_start_text self)))
  /\ (Py.truthy_opt (device_id (bridge env)) = true -> 0 < d ->
      snd r = mkWin d d true false (btn_start_text self)
      /\ exists reads,
          fst r = (reads ++ More.start_effects)%list
          /\ forallb More.is_spawn reads = true).
Proof.
  cbn zeta. unfold Win.start_new_test. split; [|split].
  - intros ->. reflexivity.
  - intros -> Hd. simpl. apply Z.leb_le in Hd. rewrite Hd. reflexivity.
  - intros -> Hd. simpl. apply Z.leb_gt in Hd. rewrite Hd.
    pose proof (network_type_never_no_route (bridge env) (slot_os env)) as Hn.
    pose proof (device_info_spawns (bridge env) (slot_os env)) as H1.
    pose proof (network_type_spawns (bridge env) (slot_os env)) as H2.
    destruct (Adb.get_device_info _ _) as [e1 info].
    destruct (Adb.get_network_type _ _) as [e2 net]. simpl in Hn, H1, H2. rewrite Hn.
    split; [reflexivity|].
    exists (e1 ++ e2)%list. split.
    + simpl. now rewrite <- app_assoc.
    + now rewrite forallb_app, H1, H2.
Qed.

Lemma start_needs_device_and_time_witness :
  Win.start_new_test Win.init (mkSlot Cases.no_phone (Cases.getprop "Redmi") 0 30 true)
  = ([Warning "错误" "未连接设备！"], Win.set_flag Win.init false)
  /\ snd (Win.start_new_test Win.init (Cases.slot "Redmi"))
     = mkWin 30 30 true false Win.start_label.
Proof.
  destruct (start_needs_device_and_time Win.init
              (mkSlot Cases.no_phone (Cases.getprop "Redmi") 0 30 true))
    as [Hno _].
  destruct (start_needs_device_and_time Win.init (Cases.slot "Redmi"))
    as [_ [_ Hgo]].
  split.
  - apply Hno. reflexivity.
  - apply Hgo; [reflexivity | reflexivity].
Defined.

(** A window with [n > 0] seconds left reacts to [n] timer ticks by
    staying silent for the first [n - 1] and, on the last, stopping the
    timers and the monitor, showing the completion notice once, and ending
    idle with nothing left and the start label. *)
Theorem countdown_finishes (self : MainWindow) :
  0 < remaining_time self ->
  let n := Z.to_nat (remaining_time self) in
  Win.reacts self (repeat Win.TimerTick (n - 1)) 
  = ([], mkWin (test_duration self) 1 (is_testing self)
               (has_triggered_bugreport self) (btn_start_text self))
  /\ Win.reacts self (repeat Win.TimerTick n)
     = ((More.stop_effects ++ [Information "测试完成" More.done_text])%list,
        mkWin (test_duration self) 0 false (has_triggered_bugreport self)
              Win.start_label).
Proof.
  intros Hpos n.
  assert (Hquiet : Win.reacts self (repeat Win.TimerTick (n - 1))
                   = ([], mkWin (test_duration self) 1 (is_testing self)
                                (has_triggered_bugreport self) (btn_start_text self))).
  { rewrite ticks_count_down by (subst n; lia). do 2 f_equal. subst n. lia. }
  split; [exact Hquiet|].
  replace n with ((n - 1) + 1)%nat by (subst n; lia).
  rewrite repeat_app, reacts_app, Hquiet. reflexivity.
Qed.

Lemma countdown_finishes_witness :
  Win.reacts (mkWin 5 5 true false Win.start_label) (repeat Win.TimerTick 5)
  = ((More.stop_effects ++ [Information "测试完成" More.done_text])%list,
     mkWin 5 0 false false Win.start_label).
Proof.
  destruct (countdown_finishes (mkWin 5 5 true false Win.start_label)) as [_ Hend];
    [reflexivity|].
  exact Hend.
Defined.

(** Pause and start again: with time left, the start button resumes (the
    monitor and the timers start again, the remaining time, the duration
    and the flag are as before, and no process is run); with no time left
    it starts a new test. *)
Theorem pause_then_start (self : MainWindow) (env : slot_env) :
  Win.reacts self [Win.StopClicked; Win.StartClicked env]
  = if 0 <? remaining_time self
    then ((More.stop_effects ++ More.start_effects)%list,
          mkWin (test_duration self) (remaining_time self) true
                (has_triggered_bugreport self) Win.resume_label)
    else
      let idle := mkWin (test_duration self) (remaining_time self) false
                        (has_triggered_bugreport self) Win.start_label in
      ((More.stop_effects ++ fst (Win.start_new_test idle env))%list,
       snd (Win.start_new_test idle env)).
Proof.
  simpl. unfold Win.on_start_clicked. simpl.
  destruct (0 <? remaining_time self); simpl.
  - reflexivity.
  - destruct (Win.start_new_test _ env) as [e w]. simpl. now rewrite app_nil_r.
Qed.

(** Changing a spin box while the test is paused forgets the pause: the
    next press of the start button runs [start_new_test], whatever time
    was left, and so clears the flag. *)
Theorem spin_change_forgets_pause (self : MainWindow) (env : slot_env) :
  let idle := mkWin (test_duration self) (remaining_time self) false
                    (has_triggered_bugreport self) Win.start_label in
  Win.reacts self [Win.StopClicked; Win.SpinChanged; Win.StartClicked env]
  = ((More.stop_effects ++ fst (Win.start_new_test idle env))%list,
     snd (Win.start_new_test idle env))
  /\ has_triggered_bugreport
       (snd (Win.reacts self [Win.StopClicked; Win.SpinChanged; Win.StartClicked env]))
     = false.
Proof.
  cbn zeta.
  assert (Heq : Win.reacts self [Win.StopClicked; Win.SpinChanged; Win.StartClicked env]
                = ((More.stop_effects
                      ++ fst (Win.start_new_test
                                (mkWin (test_duration self) (remaining_time self) false
                                       (has_triggered_bugreport self) Win.start_label)
                                env))%list,
                   snd (Win.start_new_test
                          (mkWin (test_duration self) (remaining_time self) false
                                 (has_triggered_bugreport self) Win.start_label)
                          env))).
  { simpl. unfold Win.on_start_clicked. simpl.
    destruct (Win.start_new_test _ env) as [e w]. simpl. now rewrite app_nil_r. }
  split; [exact Heq|]. rewrite Heq. simpl.
  apply (fresh_start_clears _ (Win.RestartClicked env) eq_refl).
Qed.

(** A network failure always ends the session: the timers and the monitor
    are stopped first, the window is idle with the start label, and the next
    press of the start button runs [start_new_test] and clears the flag,
    so the failure of the next test can be captured again. *)
Theorem failure_ends_session
  (self : MainWindow) (env next : slot_env) (msg : string) :
  let after := snd (Win.on_net_error self env msg) in
  (exists rest, fst (Win.on_net_error self env msg) = (More.stop_effects ++ rest)%list)
  /\ is_testing after = false
  /\ btn_start_text after = Win.start_label
  /\ Win.fresh_start after (Win.StartClicked next) = true
  /\ has_triggered_bugreport
       (snd (Win.reacts self [Win.NetError env msg; Win.StartClicked next])) = false.
Proof.
  cbn zeta.
  assert (Hshape : (exists rest, fst (Win.on_net_error self env msg)
                                 = (More.stop_effects ++ rest)%list)
                   /\ is_testing (snd (Win.on_net_error self env msg)) = false
                   /\ btn_start_text (snd (Win.on_net_error self env msg))
                      = Win.start_label).
  { destruct (has_triggered_bugreport self) eqn:Hf.
    - rewrite (on_net_error_again self env msg Hf). simpl. eauto.
    - rewrite (on_net_error_fresh self env msg Hf). cbn zeta.
      destruct (Win.is_xiaomi _); simpl; eauto. }
  destruct Hshape as [Hstop [Hidle Hlabel]].
  assert (Hfresh : Win.fresh_start (snd (Win.on_net_error self env msg))
                                   (Win.StartClicked next) = true).
  { simpl. rewrite Hlabel. reflexivity. }
  repeat split; try assumption.
  pose proof (fresh_start_clears _ _ Hfresh) as Hclear.
  simpl. destruct (Win.on_net_error self env msg) as [e1 w1]. simpl in *.
  destruct (Win.on_start_clicked w1 next) as [e2 w2]. simpl in *. exact Hclear.
Qed.

(* ------------------------------------------------------------------ *)
(** ** The capture thread                                               *)
(* ------------------------------------------------------------------ *)

Section CaptureThread.

Lemma contains_char_cons (x c : ascii) (rest : string) :
  Py.contains (String x EmptyString) (String c rest)
  = Ascii.eqb c x || Py.contains (String x EmptyString) rest.
Proof.
  cbn [Py.contains prefix].
  destruct (ascii_dec x c) as [<-|Hne].
  - rewrite Ascii.eqb_refl. destruct rest; reflexivity.
  - destruct (Ascii.eqb_spec c x) as [->|_]; [congruence | reflexivity].
Qed.

Lemma underscores_no_space (s : string) :
  Py.contains " " (Bug.underscores s) = false.
Proof.
  induction s as [|c s IH]; [reflexivity|].
  cbn [Bug.underscores]. rewrite contains_char_cons, IH.
  destruct (Ascii.eqb c " ") eqn:E; [reflexivity|]. now rewrite E.
Qed.

Lemma capture_bugreport_quiet
      (path_join : string -> string -> string)
      (adb : AdbWorker) (save_dir stamp : string) (present : bool)
      (err : option string) (sys : os) :
  filter More.is_finished
         (fst (Adb.capture_bugreport path_join adb save_dir stamp present err sys)) = []
  /\ match snd (Adb.capture_bugreport path_join adb save_dir stamp present err sys) with
     | inl _ => present = true \/ err = None
     | inr e => present = false /\ err = Some e
     end.
Proof.
  unfold Adb.capture_bugreport.
  pose proof (run_cmd_only_spawns More.is_finished adb
                ["bugreport"; path_join save_dir ("bugreport_" ++ stamp)] sys
                (fun _ _ => eq_refl)) as Hq.
  destruct (Adb.run_cmd adb _ sys) as [e r]. simpl in Hq.
  destruct present; simpl; [auto|].
  destruct err as [e'|]; simpl; auto.
Qed.

Lemma deliver_skips (pre : list effect) :
  forall acc,
    filter More.is_finished pre = [] ->
    fold_left
      (fun acc e =>
         match e with
         | FinishedSignal path msg =>
             let '(e', self') := Win.on_bugreport_finished (snd acc) path msg in
             ((fst acc ++ e')%list, self')
         | _ => acc
         end) pre acc = acc.
Proof.
  induction pre as [|e pre IH]; intros acc Hq; simpl; [reflexivity|].
  destruct e; simpl in Hq; try discriminate; now apply IH.
Qed.

(** The thread ends with its one completion signal. *)
Lemma bug_run_shape (path_join : string -> string -> string)
      (adb : AdbWorker) (msg : string) (env : capture_env) :
  exists pre path text,
    Bug.run path_join adb msg env = (pre ++ [FinishedSignal path text])%list
    /\ filter More.is_finished pre = []
    /\ (dir_exists env = true \/ makedirs_error env = None ->
        text = msg
        /\ exists model,
            path = path_join (base_path env)
                             (date_str env ++ "-" ++ model ++ "-NetworkError")
            /\ Py.contains " " model = false)
    /\ (forall e, dir_exists env = false -> makedirs_error env = Some e ->
        path = EmptyString /\ text = e).
Proof.
  unfold Bug.run.
  pose proof (run_cmd_only_spawns More.is_finished adb
                ["shell"; "getprop"; "ro.product.model"] (capture_os env)
                (fun _ _ => eq_refl)) as H1.
  destruct (Adb.run_cmd adb _ (capture_os env)) as [e1 model]. simpl in H1.
  set (name := Bug.underscores _).
  set (dir := path_join (base_path env)
                        (date_str env ++ "-" ++ name ++ "-NetworkError")).
  destruct (capture_bugreport_quiet path_join adb dir (stamp env) (dir_exists env)
              (makedirs_error env) (capture_os env)) as [H2 Hres].
  destruct (Adb.capture_bugreport path_join adb dir _ _ _ _) as [e2 [zip|err]];
    simpl in H2, Hres.
  - exists (e1 ++ e2)%list, dir, msg.
    split; [now rewrite <- app_assoc|].
    split; [now rewrite filter_app, H1, H2|]. split.
    + intros _. split; [reflexivity|].
      exists name. split; [reflexivity | apply underscores_no_space].
    + intros e Hp Hn. destruct Hres; congruence.
  - destruct Hres as [Hp Hn].
    exists (e1 ++ e2)%list, EmptyString, err.
    split; [now rewrite <- app_assoc|].
    split; [now rewrite filter_app, H1, H2|]. split.
    + intros [Hy | Hy]; congruence.
    + intros e _ He. split; [reflexivity | congruence].
Qed.

End CaptureThread.

(** Whatever the bridge answers and whatever the path join of the
    platform is, the capture thread emits exactly one completion signal, as
    the last thing it does, and the window reacts to it by closing the wait
    dialog and showing one error dialog.  When the target directory is
    there or can be made, the signal is the success one (the directory, the
    join of the program's directory with a name whose model part has no
    space, and the reason of the failure), also when the bug-report process
    itself raised or failed; when the directory cannot be made, the signal
    carries the empty path and the text of that error. *)
Theorem capture_always_reports
  (path_join : string -> string -> string)
  (adb : AdbWorker) (msg : string) (env : capture_env) (w : MainWindow) :
  exists path text,
    filter More.is_finished (Bug.run path_join adb msg env)
    = [FinishedSignal path text]
    /\ last (Bug.run path_join adb msg env) LogDialogShow = FinishedSignal path text
    /\ Win.deliver w (Bug.run path_join adb msg env)
       = ([LogDialogAccept;
           Critical Win.abort_title (Win.final_message path text)], w)
    /\ (dir_exists env = true \/ makedirs_error env = None ->
        text = msg
        /\ exists model,
            path = path_join (base_path env)
                             (date_str env ++ "-" ++ model ++ "-NetworkError")
            /\ Py.contains " " model = false)
    /\ (forall e, dir_exists env = false -> makedirs_error env = Some e ->
        path = EmptyString /\ text = e).
Proof.
  destruct (bug_run_shape path_join adb msg env)
    as [pre [path [text [Hrun [Hq [Hok Hbad]]]]]].
  exists path, text. rewrite Hrun.
  split; [rewrite filter_app, Hq; reflexivity|].
  split; [apply last_last|].
  split; [|split; [exact Hok | exact Hbad]].
  unfold Win.deliver. rewrite fold_left_app, (deliver_skips pre _ Hq). reflexivity.
Qed.

(* ------------------------------------------------------------------ *)
(** ** More on the monitor                                              *)
(* ------------------------------------------------------------------ *)

(** A turn that comes less than a second after the stored time stamp
    leaves no trace on what follows: the speed signals, the final state
    and the way the loop ends are those of the run without that turn. *)
Theorem early_turn_leaves_no_trace
  {F : Type} `{Float F} (adb : AdbWorker) (self : NetworkMonitor F)
  (t : tick F) (later : list (tick F)) :
  snd (Mon.loop_body adb self t) = true ->
  ge_one (fsub (now t) (last_time self)) = false ->
  Obs.speeds (fst (fst (Mon.loop adb self (t :: later))))
  = Obs.speeds (fst (fst (Mon.loop adb self later)))
  /\ snd (fst (Mon.loop adb self (t :: later))) = snd (fst (Mon.loop adb self later))
  /\ snd (Mon.loop adb self (t :: later)) = snd (Mon.loop adb self later).
Proof.
  intros Hc Hd.
  destruct (turn_is_sample adb self t Hc) as [Hs Hst].
  pose proof (sample_cases adb self t) as Hsample. cbn zeta in Hsample.
  unfold Mon.rates in Hsample. rewrite Hd in Hsample.
  destruct Hsample as [Hnone Hsame]. rewrite Hnone in Hs. rewrite Hsame in Hst.
  cbn [Mon.loop].
  destruct (Mon.loop_body adb self t) as [[e1 self1] continue].
  simpl in Hc, Hs, Hst. subst continue self1.
  destruct (Mon.loop adb self later) as [[e2 self2] how]. simpl.
  unfold Obs.speeds in *. rewrite filter_app, Hs. auto.
Qed.

Lemma early_turn_leaves_no_trace_witness :
  let early := Cases.turn Cases.ping_good Cases.ping_good Cases.proc_net_dev_reset (1 # 2) in
  let later := [Cases.turn Cases.ping_good Cases.ping_good Cases.proc_net_dev (2 # 1)] in
  let self : NetworkMonitor Q := mkMon 1000 600 (0 # 1) in
  Obs.speeds (fst (fst (Mon.loop Cases.phone self (early :: later))))
  = Obs.speeds (fst (fst (Mon.loop Cases.phone self later))).
Proof.
  intros early later self.
  assert (Hc : snd (Mon.loop_body Cases.phone self early) = true)
    by (vm_compute; reflexivity).
  assert (Hd : ge_one (fsub (now early) (last_time self)) = false)
    by (vm_compute; reflexivity).
  apply (early_turn_leaves_no_trace Cases.phone self early later Hc Hd).
Defined.

Section Totals.

Lemma parse_line_shift (x y : Z) (line : string) :
  Mon.parse_line (x, y) line
  = (x + fst (Mon.parse_line (0, 0) line), y + snd (Mon.parse_line (0, 0) line)).
Proof.
  unfold Mon.parse_line.
  destruct (Py.contains ":" line); [|simpl; f_equal; lia].
  destruct (String.eqb _ "lo"); [simpl; f_equal; lia|].
  destruct (9 <=? _)%nat; [|simpl; f_equal; lia].
  destruct (Py.int _) as [rx|]; [|simpl; f_equal; lia].
  destruct (Py.int _) as [tx|]; simpl; f_equal; lia.
Qed.

Lemma parse_fold_shift (lines : list string) :
  forall x y,
    fold_left Mon.parse_line lines (x, y)
    = (x + fst (fold_left Mon.parse_line lines (0, 0)),
       y + snd (fold_left Mon.parse_line lines (0, 0))).
Proof.
  induction lines as [|l lines IH]; intros x y; simpl.
  - f_equal; lia.
  - rewrite (parse_line_shift x y l).
    destruct (Mon.parse_line (0, 0) l) as [a b]. simpl.
    rewrite (IH (x + a) (y + b)), (IH a b). simpl. f_equal; lia.
Qed.

Lemma split_on_nonempty (sep : ascii) (s : string) : Py.split_on sep s <> [].
Proof.
  destruct s as [|c s]; simpl; [discriminate|].
  destruct (Ascii.eqb c sep); [discriminate|].
  destruct (Py.split_on sep s); discriminate.
Qed.

Lemma split_on_app (sep : ascii) (a b : string) :
  Py.split_on sep (a ++ String sep b)
  = (Py.split_on sep a ++ Py.split_on sep b)%list.
Proof.
  induction a as [|c a IH]; simpl.
  - now rewrite Ascii.eqb_refl.
  - destruct (Ascii.eqb c sep); [now rewrite IH|].
    rewrite IH. pose proof (split_on_nonempty sep a) as Hne.
    destruct (Py.split_on sep a) as [|p more]; [contradiction | reflexivity].
Qed.

End Totals.

(** The totals of a listing made of two parts, one after the other on
    separate lines, are the sums of the totals of the parts, whatever the
    lines hold. *)
Theorem parse_of_two_parts (a b : string) :
  Mon.parse (a ++ String Py.LF b)
  = (fst (Mon.parse a) + fst (Mon.parse b), snd (Mon.parse a) + snd (Mon.parse b)).
Proof.
  unfold Mon.parse. rewrite split_on_app, fold_left_app.
  destruct (fold_left Mon.parse_line (Py.split_on Py.LF a) (0, 0)) as [x y].
  apply parse_fold_shift.
Qed.

(** A negative rate is always shown in bytes per second, with its sign,
    whatever its size. *)
Theorem negative_rate_shown_in_bytes (q : Q) :
  (q < 0)%Q ->
  Mon.format_speed q
  = "-" ++ QFloat.dec (QFloat.round_half_even (Qabs q * inject_Z 1)) ++ " B/s".
Proof.
  intros Hq. unfold Mon.format_speed. simpl lt_int. simpl fixed.
  assert (H1 : Qle_bool (inject_Z 1024) q = false).
  { destruct (Qle_bool (inject_Z 1024) q) eqn:E; [|reflexivity].
    apply Qle_bool_iff in E. exfalso.
    apply (Qlt_irrefl 0). apply Qlt_le_trans with (inject_Z 1024); [reflexivity|].
    apply Qle_trans with q; [exact E | now apply Qlt_le_weak]. }
  assert (H0 : Qle_bool 0 q = false).
  { destruct (Qle_bool 0 q) eqn:E; [|reflexivity].
    apply Qle_bool_iff in E. exfalso. apply (Qlt_irrefl q).
    now apply Qlt_le_trans with 0%Q. }
  rewrite H1. simpl negb. cbv iota. unfold QFloat.to_fixed.
  rewrite H0. change (10 ^ Z.of_nat 0) with 1. rewrite Z.div_1_r.
  rewrite append_assoc. f_equal.
  generalize (QFloat.dec (QFloat.round_half_even (Qabs q * inject_Z 1))).
  intros s. induction s; simpl; congruence.
Qed.

Lemma negative_rate_shown_in_bytes_witness :
  Mon.format_speed (- (5 * 1024 * 1024 # 1))%Q = "-5242880 B/s".
Proof.
  rewrite (negative_rate_shown_in_bytes (- (5 * 1024 * 1024 # 1))%Q) by reflexivity.
  vm_compute. reflexivity.
Defined.

(** The hours, minutes and seconds of the timer label put together give
    the remaining time back, with minutes and seconds below sixty; the
    hours are not negative when the time is not. *)
Theorem hms_recomposes (remaining : Z) :
  let '(h, m, s) := Clock.hms remaining in
  h * 3600 + m * 60 + s = remaining
  /\ 0 <= m < 60 /\ 0 <= s < 60
  /\ (0 <= remaining -> 0 <= h).
Proof.
  unfold Clock.hms.
  pose proof (Z.div_mod remaining 60 ltac:(lia)) as H1.
  pose proof (Z.div_mod (remaining / 60) 60 ltac:(lia)) as H2.
  pose proof (Z.mod_pos_bound remaining 60 ltac:(lia)) as H3.
  pose proof (Z.mod_pos_bound (remaining / 60) 60 ltac:(lia)) as H4.
  repeat split; lia.
Qed.

Example timer_text_ex :
  (Clock.timer_text 30, Clock.timer_text 3725, Clock.timer_text 0)
  = ("00:00:30", "01:02:05", "00:00:00").
Proof. vm_compute. reflexivity. Qed.

(** A read of the counters that raises or prints nothing counts as zero
    bytes both ways; a sample taken on it measures from the baseline down
    to zero and makes zero the new baseline. *)
Theorem failed_read_counts_as_zero
  {F : Type} `{Float F} (adb : AdbWorker) (self : NetworkMonitor F) (t : tick F) :
  More.no_output (netdev t) = true ->
  let duration := fsub (now t) (last_time self) in
  snd (Mon.get_traffic_stats adb (fun _ => netdev t)) = (0, 0)
  /\ (ge_one duration = true ->
      Obs.speeds (fst (Mon.sample adb self t))
      = [SpeedSignal (Mon.speed_text (int_div (0 - last_rx self) duration)
                                     (int_div (0 - last_tx self) duration))]
      /\ snd (Mon.sample adb self t) = mkMon 0 0 (now t)).
Proof.
  intros Hno duration.
  assert (Hz : snd (Mon.get_traffic_stats adb (fun _ => netdev t)) = (0, 0)).
  { unfold Mon.get_traffic_stats, Adb.run_cmd.
    destruct (negb (Py.truthy (adb_path adb))); [reflexivity|].
    destruct (netdev t) as [e|rc out]; simpl in *; [reflexivity|].
    apply negb_true_iff in Hno. rewrite Hno. reflexivity. }
  split; [exact Hz|]. intros Hd.
  pose proof (sample_cases adb self t) as Hs. cbn zeta in Hs.
  rewrite Hz in Hs. unfold Mon.rates in Hs. simpl fst in Hs. simpl snd in Hs.
  fold duration in Hs. rewrite Hd in Hs. exact Hs.
Qed.

Lemma failed_read_counts_as_zero_witness :
  let t : tick Q := mkTick Cases.ping_good Cases.ping_good
                           (Raised "[Errno 2] No such file or directory: 'adb'")
                           (2 # 1) in
  snd (Mon.sample Cases.phone (mkMon 121000 34600 (0 # 1)) t) = mkMon 0 0 (2 # 1)%Q.
Proof.
  intros t.
  destruct (failed_read_counts_as_zero Cases.phone (mkMon 121000 34600 (0 # 1)%Q) t
              eq_refl) as [_ Hs].
  apply Hs. vm_compute. reflexivity.
Defined.

(** A timed test from start to end: on an idle window that is not paused,
    with a device handle and a positive duration [d], the start button
    followed by [d] timer ticks reads the device and network information,
    starts the monitor and the timers, stops them on the last tick and
    shows the completion notice; no error dialog is shown and no capture
    is launched. *)
Theorem timed_test_completes (self : MainWindow) (env : slot_env) :
  String.eqb (btn_start_text self) Win.resume_label = false ->
  Py.truthy_opt (device_id (bridge env)) = true ->
  let d := spin_min env * 60 + spin_sec env in
  0 < d ->
  let r := Win.reacts self (Win.StartClicked env :: repeat Win.TimerTick (Z.to_nat d)) in
  snd r = mkWin d 0 false false Win.start_label
  /\ (exists reads,
      forallb More.is_spawn reads = true
      /\ fst r = (reads ++ More.start_effects ++ More.stop_effects
                    ++ [Information "测试完成" More.done_text])%list)
  /\ Obs.criticals (fst r) = []
  /\ Obs.captures (fst r) = 0%nat.
Proof.
  intros Hlabel Hdev d Hd r.
  destruct (start_needs_device_and_time self env) as [_ [_ Hgo]].
  destruct (Hgo Hdev Hd) as [Hst [reads [Hfx Hsp]]]. fold d in Hst.
  assert (Hr : r = ((reads ++ More.start_effects ++ More.stop_effects
                       ++ [Information "测试完成" More.done_text])%list,
                    mkWin d 0 false false Win.start_label)).
  { subst r. cbn [Win.reacts Win.react]. unfold Win.on_start_clicked.
    rewrite Hlabel.
    destruct (Win.start_new_test self env) as [e1 w1]. simpl in Hst, Hfx. subst e1 w1.
    pose proof (countdown_finishes (mkWin d d true false (btn_start_text self))) as Hc.
    cbn [remaining_time] in Hc. destruct (Hc Hd) as [_ Hend].
    cbn [test_duration has_triggered_bugreport] in Hend. rewrite Hend.
    now rewrite <- !app_assoc. }
  rewrite Hr. simpl fst. simpl snd.
  assert (Hquiet : forall es, forallb More.is_spawn es = true ->
                   Obs.criticals es = [] /\ filter Obs.is_capture es = []).
  { induction es as [|e es IH]; simpl; [auto|].
    intros Hall. apply andb_true_iff in Hall. destruct Hall as [He Hes].
    destruct e; try discriminate. simpl. now apply IH. }
  destruct (Hquiet reads Hsp) as [Hk Hcap].
  assert (Happ : forall a b, Obs.criticals (a ++ b)%list
                             = (Obs.criticals a ++ Obs.criticals b)%list).
  { intros a b. induction a as [|e a IH]; simpl; [reflexivity|].
    destruct e; simpl; congruence. }
  split; [reflexivity|]. split; [exists reads; auto|]. split.
  - rewrite Happ, Hk. reflexivity.
  - unfold Obs.captures. rewrite filter_app, Hcap. reflexivity.
Qed.

Lemma timed_test_completes_witness :
  snd (Win.reacts Win.init
         (Win.StartClicked (mkSlot Cases.phone (Cases.getprop "Pixel") 0 5 true)
            :: repeat Win.TimerTick 5))
  = mkWin 5 0 false false Win.start_label.
Proof.
  apply (timed_test_completes Win.init
           (mkSlot Cases.phone (Cases.getprop "Pixel") 0 5 true)
           eq_refl eq_refl eq_refl).
Defined.
